(** * EduSense: the emotion-aware learning engine

    A shallow embedding of the scoring, seeding and policy logic of the
    [EmotionAwareLearning] component, with the properties its
    specification states about it.

    Numbers.  A JavaScript [number] is carried as an exact rational
    ([Q]) together with the three special values that division can
    produce; [Date.now()] and every score that is a sum of integer
    literals are carried as [Z]. *)

From Stdlib Require Import String ZArith QArith Qminmax Qround List Bool Lia.
From Stdlib Require Import Lqa.
Import ListNotations.

(** ** JavaScript numbers *)

Module JsNum.

Inductive num : Type :=
| Fin (q : Q)
| PInf
| NInf
| NaN.

(** [a < b] on rationals, as a boolean. *)
Definition Qltb (a b : Q) : bool := negb (Qle_bool b a).

(** [a / b] on two finite numbers: [0 / 0] is [NaN], [x / 0] is an
    infinity with the sign of [x] (the divisors of this program are
    lengths and positive literals, so the zero is never negative). *)
Definition div (a b : Q) : num :=
  if Qeq_bool b 0 then
    if Qeq_bool a 0 then NaN
    else if Qltb 0 a then PInf else NInf
  else Fin (a / b).

(** [x * c] for a finite [c]. *)
Definition mul (x : num) (c : Q) : num :=
  match x with
  | Fin q => Fin (q * c)
  | PInf => if Qeq_bool c 0 then NaN else if Qltb 0 c then PInf else NInf
  | NInf => if Qeq_bool c 0 then NaN else if Qltb 0 c then NInf else PInf
  | NaN => NaN
  end.

(** [x > c] and [x < c]: every comparison with [NaN] is false. *)
Definition gtb (x : num) (c : Q) : bool :=
  match x with
  | Fin q => Qltb c q
  | PInf => true
  | NInf => false
  | NaN => false
  end.

Definition ltb (x : num) (c : Q) : bool :=
  match x with
  | Fin q => Qltb q c
  | PInf => false
  | NInf => true
  | NaN => false
  end.

(** [Math.min(x, c)] for a finite [c]: [NaN] is contagious. *)
Definition min (x : num) (c : Q) : num :=
  match x with
  | Fin q => Fin (Qmin q c)
  | PInf => Fin c
  | NInf => NInf
  | NaN => NaN
  end.

(** Equality of numbers up to the representation of the fraction. *)
Definition eqv (x y : num) : Prop :=
  match x, y with
  | Fin a, Fin b => a == b
  | PInf, PInf => True
  | NInf, NInf => True
  | NaN, NaN => True
  | _, _ => False
  end.

Definition in_range (lo hi : Q) (x : num) : Prop :=
  match x with Fin q => lo <= q /\ q <= hi | _ => False end.

(** [x] is a whole number. *)
Definition is_int (x : num) : Prop :=
  match x with Fin q => exists z : Z, q == inject_Z z | _ => False end.

(** [2 * x] is a whole number. *)
Definition is_half_int (x : num) : Prop :=
  match x with Fin q => exists z : Z, q * 2 == inject_Z z | _ => False end.

End JsNum.

Import JsNum.

(** ** Data model *)

Inductive ActivityType : Type :=
| question_answered
| time_spent
| hint_requested
| retry.

Inductive Difficulty : Type :=
| Easy
| Medium
| Hard
| Expert.

Record LearningActivity : Type := mkActivity {
  timestamp : Z;                        (* milliseconds, [Date.now()] *)
  activityType : ActivityType;
  isCorrect : option bool;
  timeSpent : option Q;                 (* seconds *)
  difficultyLevel : option Difficulty
}.

Record EmotionalState : Type := mkEmotionalState {
  frustrationLevel : num;
  stressLevel : num;
  engagementLevel : num;
  confidenceLevel : num
}.

Inductive MessageType : Type :=
| motivation
| break
| celebration
| guidance.

(** The text of a message is either one of the five templates of its
    category, chosen by index and personalised with the learner's
    name, or a text written where the message is made; the icon is
    determined by the place too. *)
Inductive MessageText : Type :=
| template (i : Z)
| fixed.

Record EncouragementMessage : Type := mkMessage {
  type : MessageType;
  message : MessageText
}.

Definition ActivityType_eqb (a b : ActivityType) : bool :=
  match a, b with
  | question_answered, question_answered => true
  | time_spent, time_spent => true
  | hint_requested, hint_requested => true
  | retry, retry => true
  | _, _ => false
  end.

(** Truthiness of the optional fields. *)
Definition truthy_bool (o : option bool) : bool :=
  match o with Some true => true | _ => false end.

Definition truthy_num (o : option Q) : bool :=
  match o with Some q => negb (Qeq_bool q 0) | None => false end.

(** [o || 0] *)
Definition or_zero (o : option Q) : Q :=
  match o with Some q => q | None => 0 end.

Definition is_hard (a : LearningActivity) : bool :=
  match difficultyLevel a with
  | Some Hard => true
  | Some Expert => true
  | _ => false
  end.

(** ** Arrays *)

Section Arrays.
Context {A : Type}.

(** [l.slice(start)] *)
Definition slice (start : Z) (l : list A) : list A :=
  let len := Z.of_nat (length l) in
  let k := if (start <? 0)%Z then Z.max (len + start) 0 else Z.min start len in
  skipn (Z.to_nat k) l.

(** [l[i]] *)
Definition index (l : list A) (i : Z) : option A :=
  if (i <? 0)%Z then None else nth_error l (Z.to_nat i).

(** [l.filter(p).length] *)
Definition count (p : A -> bool) (l : list A) : Z :=
  Z.of_nat (length (filter p l)).

(** The last [n] entries of [l], in order. *)
Definition lastN (n : nat) (l : list A) : list A :=
  rev (firstn n (rev l)).

End Arrays.

(** ** Scoring engine *)

Definition analyzeFrustration (activities : list LearningActivity) : Z :=
  if (length activities =? 0)%nat then 0%Z
  else
    let recentActivities := slice (-10) activities in
    let frustrationScore := 0%Z in
    let wrongAnswers :=
      count (fun a => ActivityType_eqb (activityType a) question_answered
                      && negb (truthy_bool (isCorrect a)))
            recentActivities in
    let frustrationScore := (frustrationScore + wrongAnswers * 15)%Z in
    let avgTimeSpent :=
      div (fold_left (fun acc a => acc + or_zero (timeSpent a))
                     (filter (fun a => truthy_num (timeSpent a)) recentActivities)
                     0)
          (inject_Z (Z.of_nat (length recentActivities))) in
    let frustrationScore :=
      if gtb avgTimeSpent 120 then (frustrationScore + 20)%Z
      else frustrationScore in
    let retries :=
      count (fun a => ActivityType_eqb (activityType a) retry)
            recentActivities in
    let frustrationScore := (frustrationScore + retries * 10)%Z in
    Z.min frustrationScore 100.

(** [(Date.now() - sessionStartTime) / 1000 / 60], in minutes. *)
Definition sessionDuration (now sessionStartTime : Z) : Q :=
  inject_Z (now - sessionStartTime) / 1000 / 60.

Definition calculateStress (now sessionStartTime : Z)
    (activities : list LearningActivity) : Z :=
  let sessionDuration := sessionDuration now sessionStartTime in
  let stressScore := 0%Z in
  let stressScore :=
    if Qltb 45 sessionDuration then (stressScore + 30)%Z else stressScore in
  let stressScore :=
    if Qltb 90 sessionDuration then (stressScore + 40)%Z else stressScore in
  let recentHardQuestions := count is_hard (slice (-5) activities) in
  let stressScore := (stressScore + recentHardQuestions * 10)%Z in
  let recentTimes := map (fun a => or_zero (timeSpent a)) (slice (-5) activities) in
  let avgTime :=
    div (fold_left (fun a b => a + b) recentTimes 0)
        (inject_Z (Z.of_nat (length recentTimes))) in
  let stressScore :=
    if ltb avgTime 30 && (3 <? Z.of_nat (length recentTimes))%Z
    then (stressScore + 20)%Z else stressScore in
  Z.min stressScore 100.

Definition calculateEngagement (now : Z)
    (activities : list LearningActivity) : Z :=
  if (length activities =? 0)%nat then 100%Z
  else
    let recentActivities := slice (-10) activities in
    let engagementScore := 100%Z in
    let lastActivity :=
      index recentActivities (Z.of_nat (length recentActivities) - 1) in
    let engagementScore :=
      match lastActivity with
      | Some a =>
          if (180000 <? now - timestamp a)%Z then (engagementScore - 40)%Z
          else engagementScore
      | None => engagementScore
      end in
    let hints :=
      count (fun a => ActivityType_eqb (activityType a) hint_requested)
            recentActivities in
    let engagementScore := (engagementScore - hints * 8)%Z in
    Z.max engagementScore 0.

(** ** Seeding from the last assessment *)

(** Modelled from the spec: the declaration of [Result] (imported from
    [../types]) is not among the sources; the record keeps the fields
    the component reads: the per-question outcomes, the percentage
    score and the time taken in minutes. *)
Record QuestionResult : Type := mkQuestionResult {
  qr_isCorrect : bool
}.

Record Result : Type := mkResult {
  questionResults : list QuestionResult;
  percentage : Q;
  timeTaken : Q
}.

Definition getInitialEmotionalState (lastResult : option Result)
    : EmotionalState :=
  match lastResult with
  | None =>
      {| frustrationLevel := Fin 0;
         stressLevel := Fin 0;
         engagementLevel := Fin 100;
         confidenceLevel := Fin 70 |}
  | Some lastResult =>
      let wrongCount :=
        count (fun qr => negb (qr_isCorrect qr)) (questionResults lastResult) in
      let totalQuestions :=
        Z.of_nat (length (questionResults lastResult)) in
      let wrongPercentage :=
        mul (div (inject_Z wrongCount) (inject_Z totalQuestions)) 100 in
      let score := percentage lastResult in
      let frustration := min (mul wrongPercentage 0.8) 80 in
      let stress :=
        if Qltb 45 (timeTaken lastResult)
        then Qmin (50 + (timeTaken lastResult - 45)) 70
        else 30 in
      let engagement := Qmax 40 (Qmin 100 (score + 20)) in
      let confidence := Qmax 20 (Qmin 95 score) in
      {| frustrationLevel := frustration;
         stressLevel := Fin stress;
         engagementLevel := Fin engagement;
         confidenceLevel := Fin confidence |}
  end.

(** ** The component and its state hooks

    The hook [totalTimeSpent] and its one-second timer feed the
    session statistics only and are left out. *)

Record Component : Type := mkComponent {
  emotionalState : EmotionalState;
  activityLog : list LearningActivity;
  currentMessage : option EncouragementMessage;
  showBreakSuggestion : bool;
  suggestedDifficulty : string;
  sessionStartTime : Z;
  consecutiveWrong : Z
}.

Definition setEmotionalState (e : EmotionalState) (c : Component) : Component :=
  {| emotionalState := e;
     activityLog := activityLog c;
     currentMessage := currentMessage c;
     showBreakSuggestion := showBreakSuggestion c;
     suggestedDifficulty := suggestedDifficulty c;
     sessionStartTime := sessionStartTime c;
     consecutiveWrong := consecutiveWrong c |}.

Definition setActivityLog (l : list LearningActivity) (c : Component)
    : Component :=
  {| emotionalState := emotionalState c;
     activityLog := l;
     currentMessage := currentMessage c;
     showBreakSuggestion := showBreakSuggestion c;
     suggestedDifficulty := suggestedDifficulty c;
     sessionStartTime := sessionStartTime c;
     consecutiveWrong := consecutiveWrong c |}.

Definition setCurrentMessage (m : option EncouragementMessage) (c : Component)
    : Component :=
  {| emotionalState := emotionalState c;
     activityLog := activityLog c;
     currentMessage := m;
     showBreakSuggestion := showBreakSuggestion c;
     suggestedDifficulty := suggestedDifficulty c;
     sessionStartTime := sessionStartTime c;
     consecutiveWrong := consecutiveWrong c |}.

Definition setShowBreakSuggestion (b : bool) (c : Component) : Component :=
  {| emotionalState := emotionalState c;
     activityLog := activityLog c;
     currentMessage := currentMessage c;
     showBreakSuggestion := b;
     suggestedDifficulty := suggestedDifficulty c;
     sessionStartTime := sessionStartTime c;
     consecutiveWrong := consecutiveWrong c |}.

Definition setSuggestedDifficulty (d : string) (c : Component) : Component :=
  {| emotionalState := emotionalState c;
     activityLog := activityLog c;
     currentMessage := currentMessage c;
     showBreakSuggestion := showBreakSuggestion c;
     suggestedDifficulty := d;
     sessionStartTime := sessionStartTime c;
     consecutiveWrong := consecutiveWrong c |}.

Definition setConsecutiveWrong (n : Z) (c : Component) : Component :=
  {| emotionalState := emotionalState c;
     activityLog := activityLog c;
     currentMessage := currentMessage c;
     showBreakSuggestion := showBreakSuggestion c;
     suggestedDifficulty := suggestedDifficulty c;
     sessionStartTime := sessionStartTime c;
     consecutiveWrong := n |}.

(** The state of the first render: every hook at its initial value. *)
Definition initialRender (lastResult : option Result) (now : Z) : Component :=
  {| emotionalState := getInitialEmotionalState lastResult;
     activityLog := [];
     currentMessage := None;
     showBreakSuggestion := false;
     suggestedDifficulty := "Medium";
     sessionStartTime := now;
     consecutiveWrong := 0 |}.

(** ** Policy engine *)

(** [random] is the value [Math.random()] returns at this call. *)
Definition generateEncouragementMessage (type : MessageType) (random : Q)
    (c : Component) : Component :=
  setCurrentMessage
    (Some {| type := type; message := template (Qfloor (random * 5)) |}) c.

Definition adjustDifficulty (frustration stress confidence : Q)
    (c : Component) : Component :=
  if Qltb 70 frustration || Qltb 80 stress then
    setSuggestedDifficulty "Easy" c
  else if Qltb 50 frustration || Qltb 60 stress then
    setSuggestedDifficulty "Medium" c
  else if Qltb 80 confidence && Qltb frustration 30 then
    setSuggestedDifficulty "Hard" c
  else
    setSuggestedDifficulty "Medium" c.

(** The effect that runs when [activityLog] changes (and once on
    mount).  [nowStress] and [nowEngagement] are the two readings of
    [Date.now()], [random] the draw of the message selector. *)
Definition updateEmotionalState (nowStress nowEngagement : Z) (random : Q)
    (c : Component) : Component :=
  let frustration := analyzeFrustration (activityLog c) in
  let stress := calculateStress nowStress (sessionStartTime c) (activityLog c) in
  let engagement := calculateEngagement nowEngagement (activityLog c) in
  let confidence :=
    Qmax 0 (100 - (inject_Z frustration + inject_Z stress) / 2) in
  let c :=
    setEmotionalState
      {| frustrationLevel := Fin (inject_Z frustration);
         stressLevel := Fin (inject_Z stress);
         engagementLevel := Fin (inject_Z engagement);
         confidenceLevel := Fin confidence |} c in
  let c :=
    if (60 <? frustration)%Z || (70 <? stress)%Z then
      generateEncouragementMessage break random (setShowBreakSuggestion true c)
    else if (40 <? frustration)%Z then
      generateEncouragementMessage motivation random c
    else if (engagement <? 50)%Z then
      generateEncouragementMessage guidance random c
    else c in
  adjustDifficulty (inject_Z frustration) (inject_Z stress) confidence c.

(** The effect that shows the opening message, from the last result. *)
Definition showInitialMessage (lastResult : option Result) (c : Component)
    : Component :=
  match lastResult with
  | None => c
  | Some lastResult =>
      let score := percentage lastResult in
      if Qle_bool 80 score then
        setCurrentMessage
          (Some {| type := celebration; message := fixed |}) c
      else if Qle_bool 60 score then
        setCurrentMessage
          (Some {| type := motivation; message := fixed |}) c
      else
        let c :=
          setCurrentMessage
            (Some {| type := guidance; message := fixed |}) c in
        if Qltb 60 (timeTaken lastResult)
        then setShowBreakSuggestion true c
        else c
  end.

(** ** Event handlers *)

(** The four readings of [Math.random()] a call of [simulateActivity]
    can make, in the order of the call sites. *)
Record Draws : Type := mkDraws {
  draw_timeSpent : Q;
  draw_difficulty : Q;
  draw_celebrate : Q;
  draw_template : Q
}.

Definition simulateActivity (now : Z) (random : Draws)
    (activityType : ActivityType) (isCorrect : option bool)
    (c : Component) : Component :=
  let newActivity :=
    {| timestamp := now;
       activityType := activityType;
       isCorrect := isCorrect;
       timeSpent := Some (inject_Z (Qfloor (draw_timeSpent random * 180) + 30));
       difficultyLevel :=
         index [Easy; Medium; Hard; Expert]
               (Qfloor (draw_difficulty random * 4)) |} in
  let c' := setActivityLog (activityLog c ++ [newActivity]) c in
  if ActivityType_eqb activityType question_answered then
    if truthy_bool isCorrect then
      let c' := setConsecutiveWrong 0 c' in
      if Qltb 0.7 (draw_celebrate random)
      then generateEncouragementMessage celebration (draw_template random) c'
      else c'
    else
      let c' := setConsecutiveWrong (consecutiveWrong c + 1) c' in
      if (2 <=? consecutiveWrong c)%Z
      then generateEncouragementMessage motivation (draw_template random) c'
      else c'
  else c'.

Definition takeBreak (c : Component) : Component :=
  setCurrentMessage (Some {| type := break; message := fixed |})
    (setShowBreakSuggestion false c).

Definition dismissMessage (c : Component) : Component :=
  setShowBreakSuggestion false (setCurrentMessage None c).

(** One user action, with the clock and random readings it makes; the
    last three fields are the readings of the effect that follows a
    change of the log. *)
Inductive Action : Type :=
| Simulate (now : Z) (random : Draws) (activityType : ActivityType)
    (isCorrect : option bool) (nowStress nowEngagement : Z) (randomPolicy : Q)
| TakeBreak
| DismissMessage.

Definition step (a : Action) (c : Component) : Component :=
  match a with
  | Simulate now random activityType isCorrect nowStress nowEngagement rp =>
      updateEmotionalState nowStress nowEngagement rp
        (simulateActivity now random activityType isCorrect c)
  | TakeBreak => takeBreak c
  | DismissMessage => dismissMessage c
  end.

(** The component once its mount effects have run. *)
Definition mount (lastResult : option Result)
    (now nowStress nowEngagement : Z) (randomPolicy : Q) : Component :=
  updateEmotionalState nowStress nowEngagement randomPolicy
    (showInitialMessage lastResult (initialRender lastResult now)).

Definition run (actions : list Action) (c : Component) : Component :=
  fold_left (fun c a => step a c) actions c.

(** The states the component shows after its first paint. *)
Inductive Mounted (lastResult : option Result) : Component -> Prop :=
| Mounted_mount : forall now nowStress nowEngagement randomPolicy,
    Mounted lastResult (mount lastResult now nowStress nowEngagement randomPolicy)
| Mounted_step : forall c a,
    Mounted lastResult c -> Mounted lastResult (step a c).

(** ** The specification's formulas *)

Module Spec.

(** Sum and mean of a list of durations. *)
Definition total (xs : list Q) : Q := fold_right Qplus 0 xs.

Definition mean (xs : list Q) : Q :=
  total xs / inject_Z (Z.of_nat (length xs)).

Definition wrong_answer (a : LearningActivity) : bool :=
  match activityType a, isCorrect a with
  | question_answered, Some false => true
  | _, _ => false
  end.

Definition is_retry (a : LearningActivity) : bool :=
  match activityType a with retry => true | _ => false end.

Definition is_hint (a : LearningActivity) : bool :=
  match activityType a with hint_requested => true | _ => false end.

(** The durations of the activities that have [timeSpent] defined. *)
Definition defined_times (w : list LearningActivity) : list Q :=
  flat_map (fun a => match timeSpent a with Some q => [q] | None => [] end) w.

Definition frustration (log : list LearningActivity) : Z :=
  let w := lastN 10 log in
  let slow :=
    match defined_times w with
    | [] => 0%Z
    | ts => if Qltb 120 (mean ts) then 20%Z else 0%Z
    end in
  Z.min 100 (15 * count wrong_answer w + slow + 10 * count is_retry w).

Definition stress (sessionMinutes : Q) (log : list LearningActivity) : Z :=
  let w := lastN 5 log in
  let long := if Qltb 45 sessionMinutes then 30%Z else 0%Z in
  let very_long := if Qltb 90 sessionMinutes then 40%Z else 0%Z in
  let rushing :=
    if Qltb (mean (map (fun a => or_zero (timeSpent a)) w)) 30
       && (3 <? length w)%nat
    then 20%Z else 0%Z in
  Z.min 100 (long + very_long + 10 * count is_hard w + rushing).

(** [now] and the timestamps are in milliseconds. *)
Definition engagement (now : Z) (log : list LearningActivity) : Z :=
  let idle :=
    match hd_error (rev log) with
    | Some a => if (180 * 1000 <? now - timestamp a)%Z then 40%Z else 0%Z
    | None => 0%Z
    end in
  Z.max 0 (100 - idle - 8 * count is_hint (lastN 10 log)).

(** [confidenceLevel == max(0, 100 - (frustrationLevel + stressLevel) / 2)] *)
Definition confidence_dependency (e : EmotionalState) : Prop :=
  match frustrationLevel e, stressLevel e, confidenceLevel e with
  | Fin f, Fin s, Fin c => c == Qmax 0 (100 - (f + s) / 2)
  | _, _, _ => False
  end.

(** All four fields lie in [0, 100]. *)
Definition in_bounds (e : EmotionalState) : Prop :=
  in_range 0 100 (frustrationLevel e) /\ in_range 0 100 (stressLevel e) /\
  in_range 0 100 (engagementLevel e) /\ in_range 0 100 (confidenceLevel e).

(** All four fields are whole numbers. *)
Definition all_integers (e : EmotionalState) : Prop :=
  is_int (frustrationLevel e) /\ is_int (stressLevel e) /\
  is_int (engagementLevel e) /\ is_int (confidenceLevel e).

End Spec.

(** The seed of the state, from the summary of the last assessment. *)
Module SeedSpec.

(** [x] brought into the interval from [lo] to [hi]. *)
Definition clamp (x lo hi : Q) : Q :=
  if Qltb x lo then lo else if Qltb hi x then hi else x.

Definition wrongCount (res : Result) : Z :=
  count (fun qr => negb (qr_isCorrect qr)) (questionResults res).

Definition totalQuestions (res : Result) : Z :=
  Z.of_nat (length (questionResults res)).

(** min(80, 0.8 * (100 * wrongCount / totalQuestions)) *)
Definition frustration (res : Result) : Q :=
  Qmin 80 (0.8 * (100 * inject_Z (wrongCount res)
                   / inject_Z (totalQuestions res))).

Definition stress (res : Result) : Q :=
  if Qle_bool (timeTaken res) 45 then 30
  else Qmin 70 (50 + (timeTaken res - 45)).

Definition engagement (res : Result) : Q := clamp (percentage res + 20) 40 100.

Definition confidence (res : Result) : Q := clamp (percentage res) 20 95.

End SeedSpec.

(** ** Observations on the component *)

(** The range property as the code has it: confidence may be a whole
    number and a half. *)
Definition bounded_snapshot (e : EmotionalState) : Prop :=
  Spec.in_bounds e /\
  is_int (frustrationLevel e) /\ is_int (stressLevel e) /\
  is_int (engagementLevel e) /\ is_half_int (confidenceLevel e).

(** The category of the message on display, if there is one. *)
Definition message_category (c : Component) : option MessageType :=
  option_map type (currentMessage c).

(** [a] is the answering of a question, correctly or not as [b] says. *)
Definition is_answer (a : Action) (b : bool) : Prop :=
  match a with
  | Simulate _ _ question_answered (Some b') _ _ _ => b' = b
  | _ => False
  end.

(** The counter after a sequence of answers, from the value [n]: a
    correct answer resets it, a wrong one adds 1. *)
Fixpoint count_after (answers : list bool) (n : Z) : Z :=
  match answers with
  | [] => n
  | true :: rest => count_after rest 0
  | false :: rest => count_after rest (n + 1)
  end.

(** Every activity of [w] has its [timeSpent], and every answer its
    [isCorrect]. *)
Definition fully_recorded (w : list LearningActivity) : Prop :=
  Forall (fun a => timeSpent a <> None /\
                   (activityType a = question_answered -> isCorrect a <> None))
         w.

(** ** Inputs of the examples *)

(** Two activities, the first with 200 seconds spent, the second with
    no [timeSpent]. *)
Definition slow_then_untimed : list LearningActivity :=
  [ {| timestamp := 0; activityType := time_spent; isCorrect := None;
       timeSpent := Some 200; difficultyLevel := None |};
    {| timestamp := 1000; activityType := hint_requested; isCorrect := None;
       timeSpent := None; difficultyLevel := None |} ].

(** One activity, 200 seconds before [now]. *)
Definition idle_log (now : Z) (a : LearningActivity) : list LearningActivity :=
  [ {| timestamp := now - 200 * 1000; activityType := activityType a;
       isCorrect := isCorrect a; timeSpent := timeSpent a;
       difficultyLevel := difficultyLevel a |} ].

(** One wrong answer on an Easy question, logged as the session
    starts. *)
Definition after_one_wrong_answer : Component :=
  step (Simulate 0 (mkDraws 0.5 0 0.5 0.5) question_answered (Some false)
          0 0 0.5)
       (mount None 0 0 0 0.5).

(** Nine right answers after one wrong one; 90 percent in 50 minutes. *)
Definition nine_of_ten : Result :=
  {| questionResults :=
       mkQuestionResult false :: repeat (mkQuestionResult true) 9;
     percentage := 90;
     timeTaken := 50 |}.

(** Three wrong answers of 200 seconds each: frustration 45 + 20. *)
Definition three_slow_misses : Component :=
  setActivityLog
    (repeat {| timestamp := 0; activityType := question_answered;
               isCorrect := Some false; timeSpent := Some 200;
               difficultyLevel := Some Easy |} 3)
    (initialRender None 0).

(** An answer at the instant [now], with every random reading at 0.5. *)
Definition answer (now : Z) (isCorrect : bool) : Action :=
  Simulate now (mkDraws 0.5 0.5 0.5 0.5) question_answered (Some isCorrect)
    now now 0.5.

(** ** Display helpers *)

Definition getColorClass (value : num) : string :=
  if gtb value 70 then "bg-danger"
  else if gtb value 40 then "bg-warning"
  else "bg-success".

Definition getEngagementColorClass (value : num) : string :=
  if gtb value 70 then "bg-success"
  else if gtb value 40 then "bg-warning"
  else "bg-danger".

(** [x + y] and [x / 2] on numbers. *)
Definition num_add (x y : num) : num :=
  match x, y with
  | NaN, _ | _, NaN => NaN
  | Fin a, Fin b => Fin (a + b)
  | PInf, NInf | NInf, PInf => NaN
  | PInf, _ | _, PInf => PInf
  | NInf, _ | _, NInf => NInf
  end.

Definition num_halve (x : num) : num :=
  match x with
  | Fin q => Fin (q / 2)
  | other => other
  end.

(** The three icons [getEmotionIcon] chooses from. *)
Inductive Icon : Type :=
| SmileIcon
| MehIcon
| FrownIcon.

Definition getEmotionIcon (c : Component) : Icon :=
  let avgState :=
    num_halve (num_add (engagementLevel (emotionalState c))
                       (confidenceLevel (emotionalState c))) in
  if gtb avgState 70 then SmileIcon
  else if gtb avgState 40 then MehIcon
  else FrownIcon.

(** The counters of the session statistics card: [activityLog.length],
    [filter((a) => a.isCorrect).length] and
    [filter((a) => a.isCorrect === false).length]. *)
Definition statActivities (c : Component) : Z :=
  Z.of_nat (length (activityLog c)).

Definition statCorrect (c : Component) : Z :=
  count (fun a => truthy_bool (isCorrect a)) (activityLog c).

Definition statIncorrect (c : Component) : Z :=
  count (fun a => match isCorrect a with Some false => true | _ => false end)
        (activityLog c).

(** ** Observations on runs *)

(** The events a sequence of actions logs: instant, kind and outcome. *)
Definition events_of (actions : list Action)
    : list (Z * ActivityType * option bool) :=
  flat_map (fun a => match a with
                     | Simulate now _ ty ic _ _ _ => [(now, ty, ic)]
                     | _ => []
                     end) actions.

Definition event_of (a : LearningActivity) : Z * ActivityType * option bool :=
  (timestamp a, activityType a, isCorrect a).

(** The answers among the actions: [true] for a correct one.  An answer
    without [isCorrect] goes the way of a wrong one. *)
Definition answers_of (actions : list Action) : list bool :=
  flat_map (fun a => match a with
                     | Simulate _ _ question_answered ic _ _ _ =>
                         [truthy_bool ic]
                     | _ => []
                     end) actions.

(** The answers recorded in a log. *)
Definition answers_in (log : list LearningActivity) : list bool :=
  map (fun a => truthy_bool (isCorrect a))
      (filter (fun a => ActivityType_eqb (activityType a) question_answered)
              log).

(** A reading of [Math.random()]: at least 0, below 1. *)
Definition unit_draw (r : Q) : Prop := 0 <= r /\ r < 1.

(** The draws that shape the logged activity are readings of
    [Math.random()]. *)
Definition drawn (a : Action) : Prop :=
  match a with
  | Simulate _ random _ _ _ _ _ =>
      unit_draw (draw_timeSpent random) /\ unit_draw (draw_difficulty random)
  | _ => True
  end.

(** An activity as [simulateActivity] makes them: a whole number of
    seconds from 30 to 209, and a difficulty. *)
Definition simulated (a : LearningActivity) : Prop :=
  (exists t : Z, timeSpent a = Some (inject_Z t) /\ (30 <= t <= 209)%Z) /\
  difficultyLevel a <> None.

(** The most recent activity is more than three minutes old. *)
Definition idle (now : Z) (log : list LearningActivity) : Prop :=
  exists a, hd_error (rev log) = Some a /\ (180000 < now - timestamp a)%Z.

(** The action logs an activity. *)
Definition logs_activity (a : Action) : Prop :=
  match a with Simulate _ _ _ _ _ _ _ => True | _ => False end.

(** The suggested difficulty is the one [adjustDifficulty] gives for
    the scores on display. *)
Definition suggestion_matches_snapshot (c : Component) : Prop :=
  match frustrationLevel (emotionalState c), stressLevel (emotionalState c),
        confidenceLevel (emotionalState c) with
  | Fin f, Fin s, Fin k =>
      suggestedDifficulty c = suggestedDifficulty (adjustDifficulty f s k c)
  | _, _, _ => False
  end.

(** The snapshot and the suggestion come from one recomputation, with
    whole scores [f], [s] and [e]. *)
Definition recomputed_from (f s e : Z) (c : Component) : Prop :=
  (0 <= f <= 100)%Z /\ (0 <= s <= 100)%Z /\ (0 <= e <= 100)%Z /\
  emotionalState c
  = {| frustrationLevel := Fin (inject_Z f);
       stressLevel := Fin (inject_Z s);
       engagementLevel := Fin (inject_Z e);
       confidenceLevel :=
         Fin (Qmax 0 (100 - (inject_Z f + inject_Z s) / 2)) |} /\
  suggestedDifficulty c
  = suggestedDifficulty
      (adjustDifficulty (inject_Z f) (inject_Z s)
         (Qmax 0 (100 - (inject_Z f + inject_Z s) / 2)) c).

(** ** Further inputs of the examples *)

(** A correct answer to a Medium question in 45 seconds. *)
Definition quick_correct : LearningActivity :=
  {| timestamp := 0; activityType := question_answered;
     isCorrect := Some true; timeSpent := Some 45;
     difficultyLevel := Some Medium |}.

(** A wrong answer to an Easy question in 60 seconds. *)
Definition plain_miss : LearningActivity :=
  {| timestamp := 0; activityType := question_answered;
     isCorrect := Some false; timeSpent := Some 60;
     difficultyLevel := Some Easy |}.

(** A correct answer to a Hard question in 60 seconds. *)
Definition hard_correct : LearningActivity :=
  {| timestamp := 0; activityType := question_answered;
     isCorrect := Some true; timeSpent := Some 60;
     difficultyLevel := Some Hard |}.

Definition ten_quick_correct : list LearningActivity := repeat quick_correct 10.

(** The component just mounted, without a last result. *)
Definition fresh : Component := mount None 0 0 0 0.5.

(** The same with the break suggestion up. *)
Definition fresh_with_break : Component := setShowBreakSuggestion true fresh.


(** Five wrong answers given through the demo buttons, a second
    apart. *)
Definition after_five_misses : Component :=
  run (map (fun t => answer t false) [1000; 2000; 3000; 4000; 5000]%Z) fresh.

(** ** Tactics *)

(** Reduce the state setters and projections, and nothing else. *)
Ltac simpl_hooks :=
  cbn [consecutiveWrong currentMessage showBreakSuggestion
       setConsecutiveWrong setActivityLog setCurrentMessage
       setShowBreakSuggestion generateEncouragementMessage
       option_map type].

(** * Proofs *)

(** ** Auxiliary facts *)

Lemma Qltb_lt (a b : Q) : Qltb a b = true <-> a < b.
Proof.
  unfold Qltb. rewrite negb_true_iff. split; intro H.
  - apply Qnot_le_lt. intro Hle. apply Qle_bool_iff in Hle. congruence.
  - destruct (Qle_bool b a) eqn:E; [|reflexivity].
    apply Qle_bool_iff in E. exfalso. exact (Qlt_not_le _ _ H E).
Qed.

Lemma Qltb_ge (a b : Q) : Qltb a b = false <-> b <= a.
Proof.
  unfold Qltb. rewrite negb_false_iff. apply Qle_bool_iff.
Qed.

#[local] Instance Qltb_comp : Proper (Qeq ==> Qeq ==> eq) Qltb.
Proof.
  intros a a' Ha b b' Hb. unfold Qltb. now rewrite Ha, Hb.
Qed.

Lemma div_nonzero (a b : Q) : ~ b == 0 -> div a b = Fin (a / b).
Proof.
  intro H. unfold div. destruct (Qeq_bool b 0) eqn:E; [|reflexivity].
  apply Qeq_bool_iff in E. contradiction.
Qed.

Lemma inject_Z_length_nonzero {A : Type} (l : list A) :
  l <> [] -> ~ inject_Z (Z.of_nat (length l)) == 0.
Proof.
  intros Hl H. destruct l as [|x l]; [congruence|].
  unfold Qeq in H. simpl in H. lia.
Qed.

Lemma slice_last (p : positive) {A : Type} (l : list A) :
  slice (Z.neg p) l = lastN (Pos.to_nat p) l.
Proof.
  unfold slice, lastN. rewrite firstn_rev, rev_involutive.
  replace (Z.neg p <? 0)%Z with true by (symmetry; apply Z.ltb_lt; lia).
  f_equal. lia.
Qed.

Lemma lastN_nonempty {A : Type} (n : nat) (l : list A) :
  l <> [] -> lastN (S n) l <> [].
Proof.
  intros Hl. unfold lastN. destruct (rev l) as [|x r] eqn:E.
  - apply (f_equal (@rev A)) in E. rewrite rev_involutive in E. contradiction.
  - simpl. intro H. apply app_eq_nil in H. destruct H; discriminate.
Qed.

(** The last entry of the window is the last entry of the log. *)
Lemma index_last_of_window {A : Type} (n : nat) (l : list A) :
  index (lastN (S n) l) (Z.of_nat (length (lastN (S n) l)) - 1)
  = hd_error (rev l).
Proof.
  unfold lastN, index. destruct (rev l) as [|x r]; [reflexivity|].
  simpl firstn. simpl rev. rewrite length_app, length_rev. simpl.
  replace (Z.of_nat (length (firstn n r) + 1) - 1 <? 0)%Z with false
    by (symmetry; apply Z.ltb_ge; lia).
  replace (Z.to_nat (Z.of_nat (length (firstn n r) + 1) - 1))
    with (length (rev (firstn n r)))
    by (rewrite length_rev; lia).
  now rewrite nth_error_app2, Nat.sub_diag by lia.
Qed.

Lemma count_ext {A : Type} (p q : A -> bool) (l : list A) :
  (forall a, p a = q a) -> count p l = count q l.
Proof.
  intro H. unfold count. now rewrite (filter_ext p q H).
Qed.

Lemma count_bounds {A : Type} (p : A -> bool) (l : list A) :
  (0 <= count p l <= Z.of_nat (length l))%Z.
Proof.
  unfold count. pose proof (filter_length_le p l). lia.
Qed.

Lemma fold_left_total (xs : list Q) (a : Q) :
  fold_left (fun a b => a + b) xs a == a + Spec.total xs.
Proof.
  revert a. induction xs as [|x xs IH]; intro a; simpl.
  - ring.
  - rewrite IH. unfold Spec.total. ring.
Qed.

(** The average of the code is the mean, on a list that is not empty;
    on the empty list it is [NaN]. *)
Lemma div_mean (xs : list Q) :
  xs <> [] ->
  exists q, div (fold_left (fun a b => a + b) xs 0)
                (inject_Z (Z.of_nat (length xs))) = Fin q
            /\ q == Spec.mean xs.
Proof.
  intro H. eexists. split.
  - apply div_nonzero, inject_Z_length_nonzero, H.
  - unfold Spec.mean. rewrite fold_left_total.
    now rewrite Qplus_0_l.
Qed.

Lemma minutes_of_ms (d : Z) : inject_Z d / 1000 / 60 == inject_Z d / 60000.
Proof.
  field.
Qed.

(** ** Frustration *)

Lemma or_zero_falsy (o : option Q) : truthy_num o = false -> or_zero o == 0.
Proof.
  destruct o as [q|]; simpl; [|reflexivity].
  intro H. apply negb_false_iff in H. now apply Qeq_bool_iff.
Qed.

(** Skipping the activities whose [timeSpent] is missing or 0 does not
    change the sum. *)
Lemma sum_of_truthy (w : list LearningActivity) (acc : Q) :
  fold_left (fun acc a => acc + or_zero (timeSpent a))
            (filter (fun a => truthy_num (timeSpent a)) w) acc
  == acc + Spec.total (map (fun a => or_zero (timeSpent a)) w).
Proof.
  revert acc. induction w as [|a w IH]; intro acc; simpl.
  - ring.
  - destruct (truthy_num (timeSpent a)) eqn:E; simpl.
    + rewrite IH. unfold Spec.total. ring.
    + rewrite IH. apply or_zero_falsy in E. rewrite E.
      unfold Spec.total. ring.
Qed.

(** What [analyzeFrustration] computes: the sum of the durations of the
    window, a missing one counting as 0, is divided by the length of
    the window. *)
Lemma analyzeFrustration_formula (log : list LearningActivity) :
  log <> [] ->
  let w := lastN 10 log in
  analyzeFrustration log
  = Z.min 100
      (15 * count (fun a => ActivityType_eqb (activityType a) question_answered
                            && negb (truthy_bool (isCorrect a))) w
       + (if Qltb 120 (Spec.mean (map (fun a => or_zero (timeSpent a)) w))
          then 20 else 0)
       + 10 * count Spec.is_retry w)%Z.
Proof.
  intros Hlog w. unfold analyzeFrustration.
  destruct log as [|a0 log]; [congruence|].
  change (length (a0 :: log) =? 0)%nat with false. cbv iota zeta.
  rewrite (slice_last 10). change (Pos.to_nat 10) with 10%nat. fold w.
  assert (Hw : w <> []) by (apply lastN_nonempty; discriminate).
  rewrite div_nonzero by now apply inject_Z_length_nonzero.
  cbn [gtb].
  assert (E : fold_left (fun acc a => acc + or_zero (timeSpent a))
                (filter (fun a => truthy_num (timeSpent a)) w) 0
              / inject_Z (Z.of_nat (length w))
              == Spec.mean (map (fun a => or_zero (timeSpent a)) w)).
  { unfold Spec.mean. rewrite sum_of_truthy, length_map. now rewrite Qplus_0_l. }
  rewrite (Qltb_comp 120 120 (Qeq_refl _) _ _ E).
  rewrite (count_ext (fun a => ActivityType_eqb (activityType a) retry)
             Spec.is_retry)
    by (intro a; unfold Spec.is_retry; now destruct (activityType a)).
  rewrite Z.min_comm. f_equal. destruct (Qltb 120 _); lia.
Qed.

Lemma defined_times_fully_recorded (w : list LearningActivity) :
  fully_recorded w ->
  Spec.defined_times w = map (fun a => or_zero (timeSpent a)) w.
Proof.
  induction 1 as [|a w [Ha _] _ IH]; [reflexivity|].
  unfold Spec.defined_times in *. simpl. rewrite IH.
  destruct (timeSpent a); [reflexivity | congruence].
Qed.

Lemma wrong_answers_fully_recorded (w : list LearningActivity) :
  fully_recorded w ->
  count (fun a => ActivityType_eqb (activityType a) question_answered
                  && negb (truthy_bool (isCorrect a))) w
  = count Spec.wrong_answer w.
Proof.
  intro H. unfold count. f_equal. f_equal. apply filter_ext_in.
  intros a Ha. unfold fully_recorded in H. rewrite Forall_forall in H.
  destruct (H a Ha) as [_ Hc]. unfold Spec.wrong_answer.
  destruct (activityType a); try reflexivity.
  destruct (isCorrect a) as [[|]|]; try reflexivity.
  exfalso. now apply Hc.
Qed.

(** On a window in which every activity has its [timeSpent] (as every
    activity made by [simulateActivity] has) the code and the
    specification agree. *)
Lemma analyzeFrustration_fully_recorded (log : list LearningActivity) :
  fully_recorded (lastN 10 log) ->
  analyzeFrustration log = Spec.frustration log.
Proof.
  intro H. destruct log as [|a0 log]; [reflexivity|].
  rewrite analyzeFrustration_formula by discriminate. cbv zeta.
  unfold Spec.frustration. cbv zeta.
  rewrite (defined_times_fully_recorded _ H).
  rewrite (wrong_answers_fully_recorded _ H).
  assert (Hw : lastN 10 (a0 :: log) <> [])
    by (apply lastN_nonempty; discriminate).
  destruct (lastN 10 (a0 :: log)) as [|b w]; [congruence|].
  reflexivity.
Qed.

(** C1.  The specification averages [timeSpent] over the window
    activities that have it defined; [analyzeFrustration] sums over
    those activities but divides by the length of the whole window.
    On a log of one activity with 200 seconds and one without
    [timeSpent] the average of the defined durations is 200, above
    120, so the specified score is 20; the code computes 200 / 2 = 100
    and returns 0. *)
Theorem analyzeFrustration_average_over_whole_window :
  analyzeFrustration slow_then_untimed = 0%Z /\
  Spec.frustration slow_then_untimed = 20%Z /\
  Spec.defined_times (lastN 10 slow_then_untimed) = [200] /\
  Spec.mean [200] == 200.
Proof.
  repeat split.
Qed.

(** ** Stress *)

Lemma rushing_agrees (xs : list Q) :
  ltb (div (fold_left (fun a b => a + b) xs 0)
           (inject_Z (Z.of_nat (length xs)))) 30
  && (3 <? Z.of_nat (length xs))%Z
  = Qltb (Spec.mean xs) 30 && (3 <? length xs)%nat.
Proof.
  destruct xs as [|x xs].
  - reflexivity.
  - destruct (div_mean (x :: xs)) as [q [Hq Hm]]; [discriminate|].
    rewrite Hq. simpl ltb. rewrite Hm. f_equal.
    destruct (3 <? length (x :: xs))%nat eqn:E.
    + apply Nat.ltb_lt in E. apply Z.ltb_lt. lia.
    + apply Nat.ltb_ge in E. apply Z.ltb_ge. lia.
Qed.


(** ** Engagement *)

Lemma is_hint_eqb (a : LearningActivity) :
  ActivityType_eqb (activityType a) hint_requested = Spec.is_hint a.
Proof.
  unfold Spec.is_hint. now destruct (activityType a).
Qed.

(** C3.  The engagement score is max(0, 100 - 40 if the log is not
    empty and its most recent activity is more than 180 seconds old
    - 8 for each hint request among the last ten); it is 100 on the
    empty log; a single activity 200 seconds old that is not a hint
    gives 60. *)
Theorem calculateEngagement_spec :
  (forall now log, calculateEngagement now log = Spec.engagement now log) /\
  (forall now, calculateEngagement now [] = 100%Z) /\
  (forall now a, Spec.is_hint a = false ->
     calculateEngagement now (idle_log now a) = 60%Z).
Proof.
  assert (H : forall now log,
             calculateEngagement now log = Spec.engagement now log).
  { intros now log. unfold calculateEngagement, Spec.engagement.
    destruct log as [|a log]; [reflexivity|].
    cbv zeta. change (length (a :: log) =? 0)%nat with false. cbv iota.
    rewrite (slice_last 10). change (Pos.to_nat 10) with 10%nat.
    rewrite index_last_of_window.
    rewrite (count_ext _ _ _ is_hint_eqb).
    rewrite Z.max_comm. f_equal.
    change (180 * 1000)%Z with 180000%Z.
    destruct (hd_error (rev (a :: log))) as [b|];
      [destruct (180000 <? now - timestamp b)%Z|]; lia. }
  split; [exact H|]. split; [reflexivity|].
  intros now a Ha. rewrite H. unfold Spec.engagement, idle_log.
  cbn [rev app hd_error timestamp].
  replace (180 * 1000 <? now - (now - 200 * 1000))%Z with true
    by (symmetry; apply Z.ltb_lt; lia).
  unfold lastN, count. cbn [rev app firstn filter].
  unfold Spec.is_hint in *. cbn [activityType]. rewrite Ha.
  reflexivity.
Qed.

Lemma calculateEngagement_spec_witness :
  Spec.is_hint (mkActivity 0 question_answered (Some true) (Some 45) (Some Medium))
  = false /\
  calculateEngagement 500000
    (idle_log 500000
       (mkActivity 0 question_answered (Some true) (Some 45) (Some Medium)))
  = 60%Z.
Proof.
  split; [reflexivity|].
  apply (proj2 (proj2 calculateEngagement_spec)). reflexivity.
Defined.

(** ** Ranges of the three scores *)

Lemma analyzeFrustration_range (log : list LearningActivity) :
  (0 <= analyzeFrustration log <= 100)%Z.
Proof.
  unfold analyzeFrustration.
  destruct (length log =? 0)%nat; [lia|]. cbv zeta.
  match goal with |- context [count ?p ?l] =>
    pose proof (count_bounds p l) end.
  match goal with |- context [(count ?p ?l * 10)%Z] =>
    pose proof (count_bounds p l) end.
  destruct (gtb _ 120); lia.
Qed.

Lemma calculateStress_range (now start : Z) (log : list LearningActivity) :
  (0 <= calculateStress now start log <= 100)%Z.
Proof.
  unfold calculateStress. cbv zeta.
  pose proof (count_bounds is_hard (slice (-5) log)).
  destruct (Qltb 45 _), (Qltb 90 _), (ltb _ 30 && _); lia.
Qed.

Lemma calculateEngagement_range (now : Z) (log : list LearningActivity) :
  (0 <= calculateEngagement now log <= 100)%Z.
Proof.
  unfold calculateEngagement.
  destruct (length log =? 0)%nat; [lia|]. cbv zeta.
  match goal with |- context [count ?p ?l] =>
    pose proof (count_bounds p l) end.
  destruct (index _ _) as [a|]; [destruct (180000 <? _)%Z|]; lia.
Qed.

(** ** The recomputed snapshot *)

Lemma emotionalState_adjustDifficulty (f s k : Q) (c : Component) :
  emotionalState (adjustDifficulty f s k c) = emotionalState c.
Proof.
  unfold adjustDifficulty.
  destruct (_ || _); [reflexivity|].
  destruct (_ || _); [reflexivity|].
  destruct (_ && _); reflexivity.
Qed.

Lemma emotionalState_updateEmotionalState
    (nowStress nowEngagement : Z) (random : Q) (c : Component) :
  emotionalState (updateEmotionalState nowStress nowEngagement random c)
  = {| frustrationLevel := Fin (inject_Z (analyzeFrustration (activityLog c)));
       stressLevel :=
         Fin (inject_Z (calculateStress nowStress (sessionStartTime c)
                                        (activityLog c)));
       engagementLevel :=
         Fin (inject_Z (calculateEngagement nowEngagement (activityLog c)));
       confidenceLevel :=
         Fin (Qmax 0
                (100 - (inject_Z (analyzeFrustration (activityLog c))
                        + inject_Z (calculateStress nowStress
                                      (sessionStartTime c) (activityLog c)))
                       / 2)) |}.
Proof.
  unfold updateEmotionalState. cbv zeta.
  rewrite emotionalState_adjustDifficulty.
  destruct (_ || _); [reflexivity|].
  destruct (40 <? _)%Z; [reflexivity|].
  destruct (_ <? 50)%Z; reflexivity.
Qed.

(** Whatever holds of every recomputed snapshot holds of the snapshot
    of every state the mounted component goes through. *)
Lemma Mounted_emotionalState (P : EmotionalState -> Prop) :
  (forall t1 t2 r c, P (emotionalState (updateEmotionalState t1 t2 r c))) ->
  forall lastResult c, Mounted lastResult c -> P (emotionalState c).
Proof.
  intros HP lastResult c H. induction H as [| c a H IH].
  - apply HP.
  - destruct a; simpl; [apply HP | exact IH | exact IH].
Qed.

(** Twice the confidence is the whole number max(0, 200 - (f + s)). *)
Lemma confidence_doubled (f s : Z) :
  Qmax 0 (100 - (inject_Z f + inject_Z s) / 2) * 2
  == inject_Z (Z.max 0 (200 - (f + s))).
Proof.
  assert (E : 100 - (inject_Z f + inject_Z s) / 2
              == inject_Z (200 - (f + s)) / 2).
  { unfold Z.sub. rewrite inject_Z_plus, inject_Z_opp, inject_Z_plus.
    change (inject_Z 200) with 200. field. }
  destruct (Q.max_spec 0 (100 - (inject_Z f + inject_Z s) / 2))
    as [[Hlt ->] | [Hle ->]].
  - rewrite E in *. rewrite Z.max_r.
    + field.
    + apply Qlt_le_weak in Hlt.
      apply (Qmult_le_compat_r _ _ 2) in Hlt; [|discriminate].
      rewrite Qmult_0_l in Hlt.
      assert (E2 : inject_Z (200 - (f + s)) / 2 * 2 == inject_Z (200 - (f + s)))
        by field.
      rewrite E2 in Hlt. change 0 with (inject_Z 0) in Hlt.
      now rewrite <- Zle_Qle in Hlt.
  - rewrite E in Hle. rewrite Z.max_l.
    + reflexivity.
    + apply (Qmult_le_compat_r _ _ 2) in Hle; [|discriminate].
      rewrite Qmult_0_l in Hle.
      assert (E2 : inject_Z (200 - (f + s)) / 2 * 2 == inject_Z (200 - (f + s)))
        by field.
      rewrite E2 in Hle. change 0 with (inject_Z 0) in Hle.
      now rewrite <- Zle_Qle in Hle.
Qed.

Lemma confidence_range (f s : Z) :
  (0 <= f)%Z -> (0 <= s)%Z ->
  0 <= Qmax 0 (100 - (inject_Z f + inject_Z s) / 2) <= 100.
Proof.
  intros Hf Hs. split; [apply Q.le_max_l|].
  apply Q.max_lub; [discriminate|].
  rewrite Zle_Qle in Hf, Hs.
  assert (H : 0 <= (inject_Z f + inject_Z s) / 2).
  { apply Qle_shift_div_l; [reflexivity|].
    rewrite Qmult_0_l. change 0 with (0 + 0).
    apply Qplus_le_compat; assumption. }
  apply (Qplus_le_l _ _ ((inject_Z f + inject_Z s) / 2)).
  ring_simplify. apply (Qplus_le_r _ _ (-(100))). ring_simplify. exact H.
Qed.

Lemma in_range_inject_Z (z : Z) :
  (0 <= z <= 100)%Z -> in_range 0 100 (Fin (inject_Z z)).
Proof.
  intros [H0 H1]. simpl. split.
  - change 0 with (inject_Z 0). now rewrite <- Zle_Qle.
  - change 100 with (inject_Z 100). now rewrite <- Zle_Qle.
Qed.

(** ** Confidence *)

(** The snapshot of the first render, with no last result: the seed
    sets confidence to 70 while frustration and stress are 0, so the
    dependency would require 100. *)
Lemma seeded_confidence_is_independent :
  ~ Spec.confidence_dependency (emotionalState (initialRender None 0)).
Proof.
  unfold Spec.confidence_dependency. simpl. intro H.
  vm_compute in H. discriminate.
Qed.

(** C4, as amended.  Every snapshot written by the recomputation (on
    mount and after every change of the activity log) has confidence
    equal to max(0, 100 - (frustration + stress) / 2), exactly, as a
    rational; so has the snapshot of every state of the mounted
    component.  The snapshot of the first render is the seed, whose
    confidence is 70 without a last result and the percentage clamped
    to [20, 95] with one. *)
Theorem confidence_dependency_after_recomputation :
  (forall t1 t2 r c,
     Spec.confidence_dependency
       (emotionalState (updateEmotionalState t1 t2 r c))) /\
  (forall lastResult c,
     Mounted lastResult c -> Spec.confidence_dependency (emotionalState c)) /\
  (forall now,
     confidenceLevel (emotionalState (initialRender None now)) = Fin 70) /\
  (forall res now,
     confidenceLevel (emotionalState (initialRender (Some res) now))
     = Fin (Qmax 20 (Qmin 95 (percentage res)))).
Proof.
  assert (H : forall t1 t2 r c,
             Spec.confidence_dependency
               (emotionalState (updateEmotionalState t1 t2 r c))).
  { intros. rewrite emotionalState_updateEmotionalState.
    unfold Spec.confidence_dependency. simpl. reflexivity. }
  repeat split.
  - exact H.
  - apply Mounted_emotionalState, H.
Qed.

Lemma confidence_dependency_after_recomputation_witness :
  Mounted None (mount None 0 0 0 0) /\
  Spec.confidence_dependency (emotionalState (mount None 0 0 0 0)).
Proof.
  split; [apply Mounted_mount|].
  apply (proj1 (proj2 confidence_dependency_after_recomputation) None).
  apply Mounted_mount.
Defined.

(** ** Ranges and integrality *)

(** After one wrong answer frustration is 15 and stress 0, and the
    recomputed confidence is 100 - 15/2 = 92.5, which is not a whole
    number. *)
Lemma confidence_can_be_fractional :
  eqv (confidenceLevel (emotionalState after_one_wrong_answer)) (Fin 92.5) /\
  ~ (Spec.in_bounds (emotionalState after_one_wrong_answer) /\
     Spec.all_integers (emotionalState after_one_wrong_answer)).
Proof.
  assert (E : confidenceLevel (emotionalState after_one_wrong_answer)
              = Fin (185 # 2)) by (vm_compute; reflexivity).
  split; [rewrite E; reflexivity|].
  intros [_ [_ [_ [_ Hint]]]]. rewrite E in Hint. destruct Hint as [z Hz].
  unfold Qeq in Hz. cbn [Qnum Qden inject_Z] in Hz. lia.
Qed.

(** C5, as amended.  After every recomputation, and so in every state
    of the mounted component whatever activities were appended, the
    four fields lie in [0, 100]; frustration, stress and engagement
    are whole numbers, and confidence is a whole number or a whole
    number and a half. *)
Theorem snapshot_bounded_after_recomputation :
  (forall t1 t2 r c,
     bounded_snapshot (emotionalState (updateEmotionalState t1 t2 r c))) /\
  (forall lastResult c actions,
     Mounted lastResult c ->
     bounded_snapshot (emotionalState (run actions c))).
Proof.
  assert (H : forall t1 t2 r c,
             bounded_snapshot (emotionalState (updateEmotionalState t1 t2 r c))).
  { intros t1 t2 r c. rewrite emotionalState_updateEmotionalState.
    pose proof (analyzeFrustration_range (activityLog c)) as Hf.
    pose proof (calculateStress_range t1 (sessionStartTime c) (activityLog c))
      as Hs.
    pose proof (calculateEngagement_range t2 (activityLog c)) as He.
    unfold bounded_snapshot, Spec.in_bounds.
    cbn [frustrationLevel stressLevel engagementLevel confidenceLevel].
    repeat split;
      try (apply in_range_inject_Z; assumption);
      try (eexists; reflexivity).
    - apply confidence_range; lia.
    - apply confidence_range; lia.
    - eexists. apply confidence_doubled. }
  split; [exact H|].
  intros lastResult c actions Hc.
  apply (Mounted_emotionalState _ H lastResult).
  revert c Hc. induction actions as [|a actions IH]; intros c Hc; simpl.
  - exact Hc.
  - apply IH. now apply Mounted_step.
Qed.

Lemma snapshot_bounded_after_recomputation_witness :
  Mounted None (mount None 0 0 0 0) /\
  bounded_snapshot
    (emotionalState
       (run [Simulate 1000 (mkDraws 0.5 0.5 0.5 0.5) question_answered
               (Some false) 1001 1002 0.5]
            (mount None 0 0 0 0))).
Proof.
  split; [apply Mounted_mount|].
  apply (proj2 snapshot_bounded_after_recomputation None).
  apply Mounted_mount.
Defined.

(** ** Seeding *)




(** C9.  With a last result that has no questions the seed divides 0
    by 0: the wrong percentage is [NaN], and so is the frustration
    level, where the specification asks for 0. *)
Theorem seed_frustration_without_questions (score minutes : Q) :
  let res := {| questionResults := []; percentage := score;
                timeTaken := minutes |} in
  frustrationLevel (getInitialEmotionalState (Some res)) = NaN /\
  ~ in_range 0 100 (frustrationLevel (getInitialEmotionalState (Some res))) /\
  SeedSpec.totalQuestions res = 0%Z.
Proof.
  cbv zeta. repeat split. intro H. exact H.
Qed.

(** ** Difficulty *)

(** C7.  The suggested difficulty is decided by four rules, the first
    that applies winning: Easy if frustration > 70 or stress > 80;
    else Medium if frustration > 50 or stress > 60; else Hard if
    confidence > 80 and frustration < 30; else Medium.  It is always
    one of Easy, Medium and Hard, whatever it was before, and
    (75, 85, 90) gives Easy. *)
Theorem adjustDifficulty_spec :
  (forall f s k c,
     let d := suggestedDifficulty (adjustDifficulty f s k c) in
     (70 < f \/ 80 < s -> d = "Easy"%string) /\
     (~ (70 < f \/ 80 < s) -> 50 < f \/ 60 < s -> d = "Medium"%string) /\
     (~ (70 < f \/ 80 < s) -> ~ (50 < f \/ 60 < s) -> 80 < k /\ f < 30 ->
      d = "Hard"%string) /\
     (~ (70 < f \/ 80 < s) -> ~ (50 < f \/ 60 < s) -> ~ (80 < k /\ f < 30) ->
      d = "Medium"%string) /\
     (d = "Easy"%string \/ d = "Medium"%string \/ d = "Hard"%string)) /\
  (forall c, suggestedDifficulty (adjustDifficulty 75 85 90 c) = "Easy"%string).
Proof.
  split; [|reflexivity].
  intros f s k c. cbv zeta. unfold adjustDifficulty.
  destruct (Qltb 70 f || Qltb 80 s) eqn:E1.
  { apply orb_true_iff in E1. rewrite !Qltb_lt in E1.
    cbn [suggestedDifficulty setSuggestedDifficulty]. tauto. }
  apply orb_false_iff in E1. destruct E1 as [E1 E1'].
  apply Qltb_ge in E1, E1'.
  assert (N1 : ~ (70 < f \/ 80 < s)).
  { intros [H|H]; [exact (Qlt_not_le _ _ H E1) | exact (Qlt_not_le _ _ H E1')]. }
  destruct (Qltb 50 f || Qltb 60 s) eqn:E2.
  { apply orb_true_iff in E2. rewrite !Qltb_lt in E2.
    cbn [suggestedDifficulty setSuggestedDifficulty]. tauto. }
  apply orb_false_iff in E2. destruct E2 as [E2 E2'].
  apply Qltb_ge in E2, E2'.
  assert (N2 : ~ (50 < f \/ 60 < s)).
  { intros [H|H]; [exact (Qlt_not_le _ _ H E2) | exact (Qlt_not_le _ _ H E2')]. }
  destruct (Qltb 80 k && Qltb f 30) eqn:E3.
  { apply andb_true_iff in E3. rewrite !Qltb_lt in E3.
    cbn [suggestedDifficulty setSuggestedDifficulty]. tauto. }
  assert (N3 : ~ (80 < k /\ f < 30)).
  { intros [H H']. apply Qltb_lt in H, H'. rewrite H, H' in E3. discriminate. }
  cbn [suggestedDifficulty setSuggestedDifficulty]. tauto.
Qed.

(** The recomputation passes the scores of the new snapshot to
    [adjustDifficulty]; what was suggested before plays no part. *)
Lemma suggestedDifficulty_updateEmotionalState
    (t1 t2 : Z) (r : Q) (c c0 : Component) :
  let f := analyzeFrustration (activityLog c) in
  let s := calculateStress t1 (sessionStartTime c) (activityLog c) in
  suggestedDifficulty (updateEmotionalState t1 t2 r c)
  = suggestedDifficulty
      (adjustDifficulty (inject_Z f) (inject_Z s)
         (Qmax 0 (100 - (inject_Z f + inject_Z s) / 2)) c0).
Proof.
  cbv zeta. unfold updateEmotionalState. cbv zeta. unfold adjustDifficulty.
  destruct (Qltb 70 _ || Qltb 80 _); [reflexivity|].
  destruct (Qltb 50 _ || Qltb 60 _); [reflexivity|].
  destruct (Qltb 80 _ && Qltb _ 30); reflexivity.
Qed.

Lemma adjustDifficulty_spec_witness :
  (70 < 75 \/ 80 < 85) /\
  suggestedDifficulty (adjustDifficulty 75 85 90 (initialRender None 0))
  = "Easy"%string.
Proof.
  split; [left; reflexivity|].
  apply (proj1 (proj1 adjustDifficulty_spec 75 85 90 (initialRender None 0))).
  left. reflexivity.
Defined.

(** ** Breaks and messages *)

Lemma currentMessage_adjustDifficulty (f s k : Q) (c : Component) :
  currentMessage (adjustDifficulty f s k c) = currentMessage c /\
  showBreakSuggestion (adjustDifficulty f s k c) = showBreakSuggestion c /\
  consecutiveWrong (adjustDifficulty f s k c) = consecutiveWrong c.
Proof.
  unfold adjustDifficulty.
  destruct (_ || _); [now repeat split|].
  destruct (_ || _); [now repeat split|].
  destruct (_ && _); now repeat split.
Qed.

(** C8.  On every recomputation: if frustration > 60 or stress > 70
    the break suggestion is raised and the message is a break
    message; else if frustration > 40 it is a motivation message; else
    if engagement < 50 a guidance message; otherwise the message and
    the break suggestion are left as they were.  With frustration 65
    the message is a break message. *)
Theorem updateEmotionalState_policy (t1 t2 : Z) (r : Q) (c : Component) :
  let c' := updateEmotionalState t1 t2 r c in
  let f := analyzeFrustration (activityLog c) in
  let s := calculateStress t1 (sessionStartTime c) (activityLog c) in
  let e := calculateEngagement t2 (activityLog c) in
  (frustrationLevel (emotionalState c') = Fin (inject_Z f) /\
   stressLevel (emotionalState c') = Fin (inject_Z s) /\
   engagementLevel (emotionalState c') = Fin (inject_Z e)) /\
  ((60 < f \/ 70 < s)%Z ->
   showBreakSuggestion c' = true /\ message_category c' = Some break) /\
  (~ (60 < f \/ 70 < s)%Z -> (40 < f)%Z ->
   message_category c' = Some motivation /\
   showBreakSuggestion c' = showBreakSuggestion c) /\
  (~ (60 < f \/ 70 < s)%Z -> ~ (40 < f)%Z -> (e < 50)%Z ->
   message_category c' = Some guidance /\
   showBreakSuggestion c' = showBreakSuggestion c) /\
  (~ (60 < f \/ 70 < s)%Z -> ~ (40 < f)%Z -> ~ (e < 50)%Z ->
   currentMessage c' = currentMessage c /\
   showBreakSuggestion c' = showBreakSuggestion c) /\
  (f = 65%Z -> message_category c' = Some break).
Proof.
  cbv zeta. split.
  { rewrite emotionalState_updateEmotionalState. now repeat split. }
  unfold updateEmotionalState, message_category. cbv zeta.
  match goal with |- context [adjustDifficulty ?a ?b ?k ?x] =>
    destruct (currentMessage_adjustDifficulty a b k x) as [-> [-> _]] end.
  destruct (_ || _) eqn:E1.
  { apply orb_true_iff in E1. rewrite !Z.ltb_lt in E1.
    cbn. repeat split; tauto. }
  apply orb_false_iff in E1. rewrite !Z.ltb_ge in E1.
  destruct (40 <? _)%Z eqn:E2.
  { apply Z.ltb_lt in E2. cbn. repeat split; try tauto; lia. }
  apply Z.ltb_ge in E2.
  destruct (_ <? 50)%Z eqn:E3.
  { apply Z.ltb_lt in E3. cbn. repeat split; try tauto; lia. }
  apply Z.ltb_ge in E3. cbn. repeat split; try tauto; lia.
Qed.

Lemma updateEmotionalState_policy_witness :
  analyzeFrustration (activityLog three_slow_misses) = 65%Z /\
  message_category (updateEmotionalState 0 0 0 three_slow_misses) = Some break.
Proof.
  split; [reflexivity|].
  apply (updateEmotionalState_policy 0 0 0 three_slow_misses). reflexivity.
Defined.

(** ** Consecutive wrong answers *)

Lemma consecutiveWrong_updateEmotionalState (t1 t2 : Z) (r : Q) (c : Component) :
  consecutiveWrong (updateEmotionalState t1 t2 r c) = consecutiveWrong c.
Proof.
  unfold updateEmotionalState. cbv zeta.
  match goal with |- context [adjustDifficulty ?a ?b ?k ?x] =>
    destruct (currentMessage_adjustDifficulty a b k x) as [_ [_ ->]] end.
  destruct (_ || _); [reflexivity|].
  destruct (40 <? _)%Z; [reflexivity|].
  destruct (_ <? 50)%Z; reflexivity.
Qed.

Lemma consecutiveWrong_step (a : Action) (b : bool) (c : Component) :
  is_answer a b ->
  consecutiveWrong (step a c)
  = if b then 0%Z else (consecutiveWrong c + 1)%Z.
Proof.
  destruct a as [now rnd ty ic t1 t2 r| |]; simpl; try contradiction.
  destruct ty; try contradiction. destruct ic as [b'|]; [|contradiction].
  intros ->. rewrite consecutiveWrong_updateEmotionalState.
  unfold simulateActivity. cbn [ActivityType_eqb truthy_bool].
  destruct b.
  - destruct (Qltb 0.7 _); reflexivity.
  - destruct (2 <=? _)%Z; reflexivity.
Qed.

Lemma consecutiveWrong_run (actions : list Action) (answers : list bool)
    (c : Component) :
  Forall2 is_answer actions answers ->
  consecutiveWrong (run actions c) = count_after answers (consecutiveWrong c).
Proof.
  intro H. revert c. induction H as [|a b actions answers Hab _ IH]; intro c.
  - reflexivity.
  - simpl run. unfold run in IH. rewrite IH.
    rewrite (consecutiveWrong_step a b c Hab). now destruct b.
Qed.

(** C10.  On a correct answer the counter of consecutive wrong answers
    becomes 0 and the handler sets no message other than, at times, a
    celebration; on a wrong answer the counter grows by 1 and the
    handler sets a motivation message exactly when the counter was
    already 2 or more, leaving the message alone otherwise.  Over a
    sequence of answers the counter follows these two rules, so after
    wrong, wrong, correct, wrong it is 1. *)
Theorem simulateActivity_consecutiveWrong :
  (forall now rnd c,
     let c' := simulateActivity now rnd question_answered (Some true) c in
     consecutiveWrong c' = 0%Z /\
     (currentMessage c' = currentMessage c \/
      message_category c' = Some celebration)) /\
  (forall now rnd c,
     let c' := simulateActivity now rnd question_answered (Some false) c in
     consecutiveWrong c' = (consecutiveWrong c + 1)%Z /\
     ((2 <= consecutiveWrong c)%Z ->
      message_category c' = Some motivation /\
      currentMessage c'
      = Some {| type := motivation;
                message := template (Qfloor (draw_template rnd * 5)) |}) /\
     ((consecutiveWrong c < 2)%Z -> currentMessage c' = currentMessage c)) /\
  (forall actions answers c,
     Forall2 is_answer actions answers ->
     consecutiveWrong (run actions c)
     = count_after answers (consecutiveWrong c)) /\
  (forall a1 a2 a3 a4 c,
     is_answer a1 false -> is_answer a2 false -> is_answer a3 true ->
     is_answer a4 false ->
     consecutiveWrong (run [a1; a2; a3; a4] c) = 1%Z /\
     consecutiveWrong (run [a1; a2] c) = (consecutiveWrong c + 2)%Z /\
     consecutiveWrong (run [a1; a2; a3] c) = 0%Z).
Proof.
  split; [|split; [|split]].
  - intros now rnd c. cbv zeta. unfold simulateActivity, message_category.
    cbn [ActivityType_eqb truthy_bool].
    destruct (Qltb 0.7 _); simpl_hooks; auto.
  - intros now rnd c. cbv zeta. unfold simulateActivity, message_category.
    cbn [ActivityType_eqb truthy_bool].
    destruct (2 <=? consecutiveWrong c)%Z eqn:E.
    + apply Z.leb_le in E. simpl_hooks.
      repeat split; intros; try reflexivity; lia.
    + apply Z.leb_gt in E. simpl_hooks.
      repeat split; intros; try reflexivity; lia.
  - exact consecutiveWrong_run.
  - intros a1 a2 a3 a4 c H1 H2 H3 H4. repeat split.
    + rewrite (consecutiveWrong_run _ [false; false; true; false]);
        [reflexivity | repeat constructor; assumption].
    + rewrite (consecutiveWrong_run _ [false; false]);
        [simpl; lia | repeat constructor; assumption].
    + rewrite (consecutiveWrong_run _ [false; false; true]);
        [reflexivity | repeat constructor; assumption].
Qed.

Lemma simulateActivity_consecutiveWrong_witness :
  Forall2 is_answer
    [answer 1000 false; answer 2000 false; answer 3000 true; answer 4000 false]
    [false; false; true; false] /\
  consecutiveWrong
    (run [answer 1000 false; answer 2000 false; answer 3000 true;
          answer 4000 false] (mount None 0 0 0 0.5))
  = 1%Z.
Proof.
  split; [repeat constructor|].
  exact (proj1 (proj2 (proj2 (proj2 simulateActivity_consecutiveWrong))
                  (answer 1000 false) (answer 2000 false) (answer 3000 true)
                  (answer 4000 false) (mount None 0 0 0 0.5)
                  eq_refl eq_refl eq_refl eq_refl)).
Defined.


(** * Further properties of the component *)

(** ** Windows *)

Lemma lastN_app {A : Type} (n : nat) (old recent : list A) :
  (n <= length recent)%nat -> lastN n (old ++ recent) = lastN n recent.
Proof.
  intro H. unfold lastN. rewrite rev_app_distr, firstn_app, length_rev.
  replace (n - length recent)%nat with 0%nat by lia.
  now rewrite firstn_O, app_nil_r.
Qed.

Lemma length_lastN {A : Type} (n : nat) (l : list A) :
  length (lastN n l) = Nat.min n (length l).
Proof.
  unfold lastN. now rewrite length_rev, length_firstn, length_rev.
Qed.

Lemma In_firstn {A : Type} (n : nat) (l : list A) (x : A) :
  In x (firstn n l) -> In x l.
Proof.
  revert l. induction n as [|n IH]; intros [|y l] H; simpl in *; try tauto.
  destruct H as [H|H]; [now left | right; now apply IH].
Qed.

Lemma lastN_incl {A : Type} (n : nat) (l : list A) (x : A) :
  In x (lastN n l) -> In x l.
Proof.
  unfold lastN. intro H. apply in_rev in H. apply In_firstn in H.
  now apply in_rev.
Qed.

Lemma Forall_lastN {A : Type} (P : A -> Prop) (n : nat) (l : list A) :
  Forall P l -> Forall P (lastN n l).
Proof.
  rewrite !Forall_forall. intros H x Hx. apply H. now apply (lastN_incl n).
Qed.

(** X1.  Activities older than the last ten have no part in the
    frustration score. *)
Theorem analyzeFrustration_last_ten (old recent : list LearningActivity) :
  (10 <= length recent)%nat ->
  analyzeFrustration (old ++ recent) = analyzeFrustration recent.
Proof.
  intro H. unfold analyzeFrustration.
  rewrite !(slice_last 10). change (Pos.to_nat 10) with 10%nat.
  rewrite (lastN_app 10 old recent H), length_app.
  destruct recent as [|a recent]; [simpl in H; lia|].
  replace (length old + length (a :: recent) =? 0)%nat with false
    by (symmetry; apply Nat.eqb_neq; simpl; lia).
  reflexivity.
Qed.

(** X2.  Activities older than the last five have no part in the
    stress score. *)
Theorem calculateStress_last_five (now start : Z)
    (old recent : list LearningActivity) :
  (5 <= length recent)%nat ->
  calculateStress now start (old ++ recent) = calculateStress now start recent.
Proof.
  intro H. unfold calculateStress.
  rewrite !(slice_last 5). change (Pos.to_nat 5) with 5%nat.
  now rewrite (lastN_app 5 old recent H).
Qed.

(** X3.  Activities older than the last ten have no part in the
    engagement score. *)
Theorem calculateEngagement_last_ten (now : Z)
    (old recent : list LearningActivity) :
  (10 <= length recent)%nat ->
  calculateEngagement now (old ++ recent) = calculateEngagement now recent.
Proof.
  intro H. unfold calculateEngagement.
  rewrite !(slice_last 10). change (Pos.to_nat 10) with 10%nat.
  rewrite (lastN_app 10 old recent H), length_app.
  destruct recent as [|a recent]; [simpl in H; lia|].
  replace (length old + length (a :: recent) =? 0)%nat with false
    by (symmetry; apply Nat.eqb_neq; simpl; lia).
  reflexivity.
Qed.

(** ** Thresholds of the scores *)

Lemma inject_Z_length_succ {A : Type} (x : A) (l : list A) :
  inject_Z (Z.of_nat (length (x :: l))) == inject_Z (Z.of_nat (length l)) + 1.
Proof.
  simpl length. rewrite Nat2Z.inj_succ. unfold Z.succ.
  now rewrite inject_Z_plus.
Qed.

Lemma total_le (c : Q) (xs : list Q) :
  Forall (fun x => x <= c) xs ->
  Spec.total xs <= c * inject_Z (Z.of_nat (length xs)).
Proof.
  induction 1 as [|x xs Hx _ IH].
  - simpl. rewrite Qmult_0_r. apply Qle_refl.
  - rewrite inject_Z_length_succ. simpl Spec.total.
    setoid_replace (c * (inject_Z (Z.of_nat (length xs)) + 1))
      with (c + c * inject_Z (Z.of_nat (length xs))) by ring.
    now apply Qplus_le_compat.
Qed.

Lemma total_ge (c : Q) (xs : list Q) :
  Forall (fun x => c <= x) xs ->
  c * inject_Z (Z.of_nat (length xs)) <= Spec.total xs.
Proof.
  induction 1 as [|x xs Hx _ IH].
  - simpl. rewrite Qmult_0_r. apply Qle_refl.
  - rewrite inject_Z_length_succ. simpl Spec.total.
    setoid_replace (c * (inject_Z (Z.of_nat (length xs)) + 1))
      with (c + c * inject_Z (Z.of_nat (length xs))) by ring.
    now apply Qplus_le_compat.
Qed.

Lemma inject_Z_length_pos {A : Type} (l : list A) :
  l <> [] -> 0 < inject_Z (Z.of_nat (length l)).
Proof.
  intro H. destruct l as [|x l]; [congruence|].
  change 0 with (inject_Z 0). rewrite <- Zlt_Qlt. simpl length. lia.
Qed.

Lemma mean_le (c : Q) (xs : list Q) :
  xs <> [] -> Forall (fun x => x <= c) xs -> Spec.mean xs <= c.
Proof.
  intros Hne H. unfold Spec.mean.
  apply Qle_shift_div_r; [now apply inject_Z_length_pos | now apply total_le].
Qed.

Lemma mean_ge (c : Q) (xs : list Q) :
  xs <> [] -> Forall (fun x => c <= x) xs -> c <= Spec.mean xs.
Proof.
  intros Hne H. unfold Spec.mean.
  apply Qle_shift_div_l; [now apply inject_Z_length_pos | now apply total_ge].
Qed.

Lemma count_all {A : Type} (p : A -> bool) (l : list A) :
  Forall (fun a => p a = true) l -> count p l = Z.of_nat (length l).
Proof.
  unfold count. induction 1 as [|a l Ha _ IH]; [reflexivity|].
  simpl. rewrite Ha. simpl. lia.
Qed.

Lemma count_none {A : Type} (p : A -> bool) (l : list A) :
  Forall (fun a => p a = false) l -> count p l = 0%Z.
Proof.
  unfold count. induction 1 as [|a l Ha _ IH]; [reflexivity|].
  simpl. now rewrite Ha.
Qed.

(** X4.  On a log of wrong answers only, none slower than 120
    seconds, the frustration score is 15 for each answer, up to 100. *)
Theorem analyzeFrustration_wrong_answers (log : list LearningActivity) :
  Forall (fun a => activityType a = question_answered /\
                   truthy_bool (isCorrect a) = false /\
                   or_zero (timeSpent a) <= 120) log ->
  analyzeFrustration log = Z.min 100 (15 * Z.of_nat (length log)).
Proof.
  intro H. destruct log as [|a0 log]; [reflexivity|].
  rewrite analyzeFrustration_formula by discriminate. cbv zeta.
  apply (Forall_lastN _ 10) in H.
  assert (Hw : lastN 10 (a0 :: log) <> [])
    by (apply lastN_nonempty; discriminate).
  pose proof (length_lastN 10 (a0 :: log)) as Hlen.
  set (w := lastN 10 (a0 :: log)) in *.
  rewrite (count_all _ w), (count_none Spec.is_retry w).
  - assert (E : Qltb 120 (Spec.mean (map (fun a => or_zero (timeSpent a)) w))
                = false).
    { apply Qltb_ge, mean_le.
      - destruct w; [congruence | discriminate].
      - apply Forall_map. revert H. apply Forall_impl. tauto. }
    rewrite E. lia.
  - revert H. apply Forall_impl. intros a [Ha _]. unfold Spec.is_retry.
    now rewrite Ha.
  - revert H. apply Forall_impl. intros a [Ha [Hc _]]. now rewrite Ha, Hc.
Qed.

(** Activities of 30 seconds or more are not rushed. *)
Lemma unhurried_not_rushing (w : list LearningActivity) :
  Forall (fun a => 30 <= or_zero (timeSpent a)) w ->
  Qltb (Spec.mean (map (fun a => or_zero (timeSpent a)) w)) 30
  && (3 <? length (map (fun a => or_zero (timeSpent a)) w))%nat = false.
Proof.
  intro H. destruct w as [|b w]; [reflexivity|].
  apply andb_false_iff. left. apply Qltb_ge, mean_ge; [discriminate|].
  now apply Forall_map.
Qed.

(** X12.  When each of the last five activities took 30 seconds or
    more, the rushing bonus is off: stress is the session bonuses plus
    10 for each Hard or Expert activity among them, up to 100. *)
Theorem calculateStress_without_rushing (now start : Z)
    (log : list LearningActivity) :
  Forall (fun a => 30 <= or_zero (timeSpent a)) (lastN 5 log) ->
  calculateStress now start log
  = Z.min 100
      ((if Qltb 45 (sessionDuration now start) then 30 else 0)
       + (if Qltb 90 (sessionDuration now start) then 40 else 0)
       + 10 * count is_hard (lastN 5 log)).
Proof.
  intro H. unfold calculateStress. cbv zeta.
  rewrite (slice_last 5). change (Pos.to_nat 5) with 5%nat.
  rewrite rushing_agrees, (unhurried_not_rushing _ H).
  rewrite Z.min_comm. f_equal.
  destruct (Qltb 45 _), (Qltb 90 _); lia.
Qed.


Lemma hint_count_nil :
  count (fun a => ActivityType_eqb (activityType a) hint_requested)
        (lastN 10 (@nil LearningActivity)) = 0%Z.
Proof.
  reflexivity.
Qed.

(** X22.  Engagement is below 50, the threshold of the guidance
    message, exactly when there are seven or more hint requests among
    the last ten activities, or two or more while the most recent
    activity is more than three minutes old. *)
Theorem calculateEngagement_below_50 (now : Z) (log : list LearningActivity) :
  let hints :=
    count (fun a => ActivityType_eqb (activityType a) hint_requested)
          (lastN 10 log) in
  (calculateEngagement now log < 50)%Z <->
  (7 <= hints)%Z \/ (idle now log /\ (2 <= hints)%Z).
Proof.
  cbv zeta. unfold calculateEngagement, idle.
  destruct log as [|a0 log].
  - rewrite hint_count_nil. simpl. split; [lia|].
    intros [H|[[a [H _]] _]]; [lia | discriminate].
  - change (length (a0 :: log) =? 0)%nat with false. cbv iota zeta.
    rewrite (slice_last 10). change (Pos.to_nat 10) with 10%nat.
    rewrite index_last_of_window.
    match goal with |- context [count ?p ?l] =>
      pose proof (count_bounds p l) as Hc; set (h := count p l) in * end.
    destruct (hd_error (rev (a0 :: log))) as [b|].
    + destruct (180000 <? now - timestamp b)%Z eqn:E.
      * apply Z.ltb_lt in E. split.
        -- intro H. destruct (Z_le_gt_dec 7 h); [now left|].
           right. split; [|lia]. exists b. now split.
        -- intros [H|[_ H]]; lia.
      * apply Z.ltb_ge in E. split.
        -- intro H. left. lia.
        -- intros [H|[[b' [Hb Hidle]] _]]; [lia|].
           injection Hb as <-. lia.
    + split.
      * intro H. left. lia.
      * intros [H|[[b' [Hb _]] _]]; [lia | discriminate].
Qed.

(** ** What a recomputation does to the hooks *)

Lemma Qltb_inject_Z (a b : Z) : Qltb (inject_Z a) (inject_Z b) = (a <? b)%Z.
Proof.
  destruct (a <? b)%Z eqn:E.
  - apply Z.ltb_lt in E. apply Qltb_lt. now rewrite <- Zlt_Qlt.
  - apply Z.ltb_ge in E. apply Qltb_ge. now rewrite <- Zle_Qle.
Qed.

(** Minutes against milliseconds. *)
Lemma Qltb_sessionDuration (m now start : Z) :
  Qltb (inject_Z m) (sessionDuration now start)
  = (m * 60000 <? now - start)%Z.
Proof.
  unfold sessionDuration.
  rewrite (Qltb_comp _ _ (Qeq_refl _) _ _ (minutes_of_ms (now - start))).
  assert (E : inject_Z (now - start) / 60000
              == inject_Z (now - start) / inject_Z 60000) by reflexivity.
  destruct (m * 60000 <? now - start)%Z eqn:H.
  - apply Z.ltb_lt in H. apply Qltb_lt.
    apply Qlt_shift_div_l; [reflexivity|].
    change 60000 with (inject_Z 60000). rewrite <- inject_Z_mult.
    now rewrite <- Zlt_Qlt.
  - apply Z.ltb_ge in H. apply Qltb_ge.
    apply Qle_shift_div_r; [reflexivity|].
    change 60000 with (inject_Z 60000). rewrite <- inject_Z_mult.
    now rewrite <- Zle_Qle.
Qed.

(** Confidence is above 80 exactly when frustration and stress add up
    to less than 40. *)
Lemma confidence_above_80 (f s : Z) :
  Qltb 80 (Qmax 0 (100 - (inject_Z f + inject_Z s) / 2)) = (f + s <? 40)%Z.
Proof.
  pose proof (confidence_doubled f s) as D.
  set (k := Qmax 0 (100 - (inject_Z f + inject_Z s) / 2)) in *.
  assert (H : 80 < k <-> (f + s < 40)%Z).
  { split; intro H.
    - assert (H2 : inject_Z 160 < k * 2).
      { setoid_replace (inject_Z 160) with (80 * 2) by reflexivity.
        apply Qmult_lt_compat_r; [reflexivity | exact H]. }
      rewrite D in H2. rewrite <- Zlt_Qlt in H2. lia.
    - assert (H2 : inject_Z 160 < k * 2).
      { rewrite D. rewrite <- Zlt_Qlt. lia. }
      setoid_replace (inject_Z 160) with (80 * 2) in H2 by reflexivity.
      apply Qmult_lt_r in H2; [exact H2 | reflexivity]. }
  destruct (f + s <? 40)%Z eqn:E.
  - apply Z.ltb_lt in E. apply Qltb_lt. now apply H.
  - apply Z.ltb_ge in E. apply Qltb_ge. apply Qnot_lt_le. intro K.
    apply H in K. lia.
Qed.

(** The message, the break flag and the suggestion after a
    recomputation, from the three scores. *)
Lemma updateEmotionalState_hooks (t1 t2 : Z) (r : Q) (c : Component) :
  let f := analyzeFrustration (activityLog c) in
  let s := calculateStress t1 (sessionStartTime c) (activityLog c) in
  let e := calculateEngagement t2 (activityLog c) in
  let c' := updateEmotionalState t1 t2 r c in
  currentMessage c'
  = (if (60 <? f)%Z || (70 <? s)%Z
     then Some {| type := break; message := template (Qfloor (r * 5)) |}
     else if (40 <? f)%Z
     then Some {| type := motivation; message := template (Qfloor (r * 5)) |}
     else if (e <? 50)%Z
     then Some {| type := guidance; message := template (Qfloor (r * 5)) |}
     else currentMessage c) /\
  showBreakSuggestion c'
  = ((60 <? f)%Z || (70 <? s)%Z || showBreakSuggestion c) /\
  suggestedDifficulty c'
  = (if (70 <? f)%Z || (80 <? s)%Z then "Easy"
     else if (50 <? f)%Z || (60 <? s)%Z then "Medium"
     else if (f + s <? 40)%Z && (f <? 30)%Z then "Hard"
     else "Medium")%string /\
  activityLog c' = activityLog c /\
  sessionStartTime c' = sessionStartTime c.
Proof.
  cbv zeta. unfold updateEmotionalState. cbv zeta.
  set (f := analyzeFrustration (activityLog c)).
  set (s := calculateStress t1 (sessionStartTime c) (activityLog c)).
  set (e := calculateEngagement t2 (activityLog c)).
  unfold adjustDifficulty.
  change (Qltb 70 (inject_Z f)) with (Qltb (inject_Z 70) (inject_Z f)).
  change (Qltb 80 (inject_Z s)) with (Qltb (inject_Z 80) (inject_Z s)).
  change (Qltb 50 (inject_Z f)) with (Qltb (inject_Z 50) (inject_Z f)).
  change (Qltb 60 (inject_Z s)) with (Qltb (inject_Z 60) (inject_Z s)).
  change (Qltb (inject_Z f) 30) with (Qltb (inject_Z f) (inject_Z 30)).
  rewrite !Qltb_inject_Z, confidence_above_80.
  destruct ((70 <? f)%Z || (80 <? s)%Z), ((50 <? f)%Z || (60 <? s)%Z),
    ((f + s <? 40)%Z && (f <? 30)%Z), ((60 <? f)%Z || (70 <? s)%Z),
    (40 <? f)%Z, (e <? 50)%Z; repeat split.
Qed.

Lemma showInitialMessage_keeps (lastResult : option Result) (c : Component) :
  activityLog (showInitialMessage lastResult c) = activityLog c /\
  sessionStartTime (showInitialMessage lastResult c) = sessionStartTime c /\
  consecutiveWrong (showInitialMessage lastResult c) = consecutiveWrong c.
Proof.
  destruct lastResult as [res|]; [|now repeat split].
  unfold showInitialMessage.
  destruct (Qle_bool 80 _); [now repeat split|].
  destruct (Qle_bool 60 _); [now repeat split|].
  destruct (Qltb 60 _); now repeat split.
Qed.

Lemma calculateStress_empty (now start : Z) :
  (calculateStress now start [] <= 70)%Z /\
  ((now - start <= 2700000)%Z -> calculateStress now start [] = 0%Z).
Proof.
  unfold calculateStress. cbv zeta.
  change 45 with (inject_Z 45). change 90 with (inject_Z 90).
  rewrite !Qltb_sessionDuration.
  change (slice (-5) (@nil LearningActivity)) with (@nil LearningActivity).
  change (count is_hard []) with 0%Z.
  change (map (fun a : LearningActivity => or_zero (timeSpent a)) [])
    with (@nil Q).
  change (ltb (div (fold_left (fun a b => a + b) [] 0)
                   (inject_Z (Z.of_nat (length (@nil Q))))) 30
          && (3 <? Z.of_nat (length (@nil Q)))%Z) with false.
  cbv iota. split.
  - destruct (45 * 60000 <? _)%Z, (90 * 60000 <? _)%Z; lia.
  - intro H.
    replace (45 * 60000 <? now - start)%Z with false
      by (symmetry; apply Z.ltb_ge; lia).
    replace (90 * 60000 <? now - start)%Z with false
      by (symmetry; apply Z.ltb_ge; lia).
    reflexivity.
Qed.

(** ** Mounting *)

(** X6.  The mount effect recomputes the snapshot from the empty log:
    whatever the last result, the seed is replaced by frustration 0,
    engagement 100 and the stress of the empty log; when the effect
    runs within 45 minutes of the first render the snapshot is
    (0, 0, 100, 100). *)
Theorem mount_replaces_seed (lastResult : option Result)
    (now t1 t2 : Z) (r : Q) :
  let e := emotionalState (mount lastResult now t1 t2 r) in
  e = emotionalState (mount None now t1 t2 r) /\
  frustrationLevel e = Fin 0 /\
  engagementLevel e = Fin 100 /\
  stressLevel e = Fin (inject_Z (calculateStress t1 now [])) /\
  ((t1 - now <= 2700000)%Z ->
   stressLevel e = Fin 0 /\ eqv (confidenceLevel e) (Fin 100)).
Proof.
  cbv zeta. unfold mount. rewrite !emotionalState_updateEmotionalState.
  destruct (showInitialMessage_keeps lastResult (initialRender lastResult now))
    as [-> [-> _]].
  cbn [showInitialMessage activityLog sessionStartTime initialRender
       frustrationLevel engagementLevel stressLevel confidenceLevel].
  repeat split.
  - destruct (calculateStress_empty t1 now) as [_ H0]. now rewrite H0.
  - destruct (calculateStress_empty t1 now) as [_ H0]. now rewrite H0.
Qed.

(** X7.  The opening message outlives the mount effect: after mount
    the message is the one chosen from the last score (celebration
    from 80, motivation from 60, guidance below), there is none
    without a last result, and the break suggestion is up exactly for
    a score below 60 reached in more than 60 minutes. *)
Theorem mount_opening_message (lastResult : option Result)
    (now t1 t2 : Z) (r : Q) :
  let c := mount lastResult now t1 t2 r in
  match lastResult with
  | None => currentMessage c = None /\ showBreakSuggestion c = false
  | Some res =>
      (80 <= percentage res -> message_category c = Some celebration) /\
      (60 <= percentage res -> percentage res < 80 ->
       message_category c = Some motivation) /\
      (percentage res < 60 -> message_category c = Some guidance) /\
      (showBreakSuggestion c = true <->
       percentage res < 60 /\ 60 < timeTaken res)
  end.
Proof.
  cbv zeta. unfold mount, message_category.
  destruct (updateEmotionalState_hooks t1 t2 r
              (showInitialMessage lastResult (initialRender lastResult now)))
    as [Hm [Hb _]].
  cbv zeta in Hm, Hb. rewrite Hm, Hb. clear Hm Hb.
  destruct (showInitialMessage_keeps lastResult (initialRender lastResult now))
    as [-> [-> _]].
  cbn [activityLog sessionStartTime initialRender].
  change (analyzeFrustration []) with 0%Z.
  change (calculateEngagement t2 []) with 100%Z.
  destruct (calculateStress_empty t1 now) as [Hs _].
  replace (70 <? calculateStress t1 now [])%Z with false
    by (symmetry; apply Z.ltb_ge; exact Hs).
  cbn [Z.ltb Z.compare orb].
  destruct lastResult as [res|]; [|now split].
  unfold showInitialMessage.
  destruct (Qle_bool 80 (percentage res)) eqn:E80.
  { apply Qle_bool_iff in E80. cbn.
    repeat split; intros; try reflexivity; try discriminate;
      exfalso; intuition lra. }
  assert (N80 : percentage res < 80).
  { apply Qnot_le_lt. intro H. apply Qle_bool_iff in H. congruence. }
  destruct (Qle_bool 60 (percentage res)) eqn:E60.
  { apply Qle_bool_iff in E60. cbn.
    repeat split; intros; try reflexivity; try discriminate;
      exfalso; intuition lra. }
  assert (N60 : percentage res < 60).
  { apply Qnot_le_lt. intro H. apply Qle_bool_iff in H. congruence. }
  destruct (Qltb 60 (timeTaken res)) eqn:Et.
  - apply Qltb_lt in Et. cbn.
    repeat split; intros; try reflexivity; try assumption;
      exfalso; intuition lra.
  - apply Qltb_ge in Et. cbn.
    repeat split; intros; try reflexivity; try discriminate;
      exfalso; intuition lra.
Qed.

(** ** Breaks and the suggested difficulty *)

Lemma simulateActivity_keeps (now : Z) (random : Draws) (ty : ActivityType)
    (ic : option bool) (c : Component) :
  showBreakSuggestion (simulateActivity now random ty ic c)
  = showBreakSuggestion c /\
  emotionalState (simulateActivity now random ty ic c) = emotionalState c /\
  suggestedDifficulty (simulateActivity now random ty ic c)
  = suggestedDifficulty c /\
  sessionStartTime (simulateActivity now random ty ic c) = sessionStartTime c.
Proof.
  unfold simulateActivity.
  destruct (ActivityType_eqb ty question_answered); [|now repeat split].
  destruct (truthy_bool ic).
  - destruct (Qltb 0.7 _); now repeat split.
  - destruct (2 <=? _)%Z; now repeat split.
Qed.

(** X8.  Logging activities never withdraws a break suggestion: once
    it is up it stays up through every recomputation, until the
    learner takes the break or dismisses the message. *)
Theorem break_suggestion_stays (actions : list Action) (c : Component) :
  Forall logs_activity actions ->
  showBreakSuggestion c = true ->
  showBreakSuggestion (run actions c) = true.
Proof.
  intro H. revert c. induction H as [|a actions Ha _ IH]; intros c Hc.
  - exact Hc.
  - simpl run. apply IH.
    destruct a as [now random ty ic t1 t2 r| |]; try contradiction.
    simpl step.
    destruct (updateEmotionalState_hooks t1 t2 r
                (simulateActivity now random ty ic c)) as [_ [Hb _]].
    cbv zeta in Hb. rewrite Hb.
    destruct (simulateActivity_keeps now random ty ic c) as [-> _].
    rewrite Hc. apply orb_true_r.
Qed.

(** X13.  After a recomputation the suggestion is Easy exactly when
    frustration is above 70 or stress above 80, and Hard exactly when
    frustration is below 30 and frustration and stress add up to less
    than 40; in every other case it is Medium. *)
Theorem suggestedDifficulty_from_scores (t1 t2 : Z) (r : Q) (c : Component) :
  let f := analyzeFrustration (activityLog c) in
  let s := calculateStress t1 (sessionStartTime c) (activityLog c) in
  let d := suggestedDifficulty (updateEmotionalState t1 t2 r c) in
  (d = "Easy"%string <-> (70 < f \/ 80 < s)%Z) /\
  (d = "Hard"%string <-> (f < 30 /\ f + s < 40)%Z) /\
  (d = "Medium"%string <->
   (f <= 70 /\ s <= 80 /\ (30 <= f \/ 40 <= f + s))%Z).
Proof.
  cbv zeta.
  destruct (updateEmotionalState_hooks t1 t2 r c) as [_ [_ [Hd _]]].
  cbv zeta in Hd. rewrite Hd. clear Hd.
  pose proof (analyzeFrustration_range (activityLog c)) as Hf.
  pose proof (calculateStress_range t1 (sessionStartTime c) (activityLog c))
    as Hs.
  set (f := analyzeFrustration (activityLog c)) in *.
  set (s := calculateStress t1 (sessionStartTime c) (activityLog c)) in *.
  destruct ((70 <? f)%Z || (80 <? s)%Z) eqn:E1.
  { apply orb_true_iff in E1. rewrite !Z.ltb_lt in E1.
    repeat split; intros; try reflexivity; try discriminate; try lia;
      try tauto. }
  apply orb_false_iff in E1. rewrite !Z.ltb_ge in E1.
  destruct ((50 <? f)%Z || (60 <? s)%Z) eqn:E2.
  { apply orb_true_iff in E2. rewrite !Z.ltb_lt in E2.
    repeat split; intros; try reflexivity; try discriminate; lia. }
  apply orb_false_iff in E2. rewrite !Z.ltb_ge in E2.
  destruct ((f + s <? 40)%Z && (f <? 30)%Z) eqn:E3.
  { apply andb_true_iff in E3. rewrite !Z.ltb_lt in E3.
    repeat split; intros; try reflexivity; try discriminate; lia. }
  apply andb_false_iff in E3. rewrite !Z.ltb_ge in E3.
  repeat split; intros; try reflexivity; try discriminate; lia.
Qed.


(** ** The snapshot and the suggestion go together *)

Lemma adjustDifficulty_scores (f s : Z) (c : Component) :
  suggestedDifficulty
    (adjustDifficulty (inject_Z f) (inject_Z s)
       (Qmax 0 (100 - (inject_Z f + inject_Z s) / 2)) c)
  = (if (70 <? f)%Z || (80 <? s)%Z then "Easy"
     else if (50 <? f)%Z || (60 <? s)%Z then "Medium"
     else if (f + s <? 40)%Z && (f <? 30)%Z then "Hard"
     else "Medium")%string.
Proof.
  unfold adjustDifficulty.
  change (Qltb 70 (inject_Z f)) with (Qltb (inject_Z 70) (inject_Z f)).
  change (Qltb 80 (inject_Z s)) with (Qltb (inject_Z 80) (inject_Z s)).
  change (Qltb 50 (inject_Z f)) with (Qltb (inject_Z 50) (inject_Z f)).
  change (Qltb 60 (inject_Z s)) with (Qltb (inject_Z 60) (inject_Z s)).
  change (Qltb (inject_Z f) 30) with (Qltb (inject_Z f) (inject_Z 30)).
  rewrite !Qltb_inject_Z, confidence_above_80.
  destruct ((70 <? f)%Z || (80 <? s)%Z), ((50 <? f)%Z || (60 <? s)%Z),
    ((f + s <? 40)%Z && (f <? 30)%Z); reflexivity.
Qed.

Lemma updateEmotionalState_recomputed (t1 t2 : Z) (r : Q) (c : Component) :
  recomputed_from (analyzeFrustration (activityLog c))
    (calculateStress t1 (sessionStartTime c) (activityLog c))
    (calculateEngagement t2 (activityLog c))
    (updateEmotionalState t1 t2 r c).
Proof.
  unfold recomputed_from.
  split; [apply analyzeFrustration_range|].
  split; [apply calculateStress_range|].
  split; [apply calculateEngagement_range|].
  split; [apply emotionalState_updateEmotionalState|].
  apply suggestedDifficulty_updateEmotionalState.
Qed.

Lemma Mounted_recomputed (lastResult : option Result) (c : Component) :
  Mounted lastResult c -> exists f s e, recomputed_from f s e c.
Proof.
  induction 1 as [now t1 t2 r | c a _ IH].
  - eexists _, _, _. apply updateEmotionalState_recomputed.
  - destruct a as [now random ty ic t1 t2 r| |].
    + eexists _, _, _. apply updateEmotionalState_recomputed.
    + destruct IH as [f [s [e [Hf [Hs [He [Hst Hd]]]]]]].
      exists f, s, e. unfold recomputed_from.
      rewrite adjustDifficulty_scores in *. now repeat split.
    + destruct IH as [f [s [e [Hf [Hs [He [Hst Hd]]]]]]].
      exists f, s, e. unfold recomputed_from.
      rewrite adjustDifficulty_scores in *. now repeat split.
Qed.

(** X15.  In every state of the mounted component the suggested
    difficulty is the one the rules give for the scores on display:
    taking a break or dismissing a message changes neither. *)
Theorem suggestion_follows_snapshot (lastResult : option Result)
    (c : Component) :
  Mounted lastResult c -> suggestion_matches_snapshot c.
Proof.
  intro H. destruct (Mounted_recomputed _ _ H)
    as [f [s [e [_ [_ [_ [Hst Hd]]]]]]].
  unfold suggestion_matches_snapshot. rewrite Hst.
  cbn [frustrationLevel stressLevel confidenceLevel]. exact Hd.
Qed.


(** X23.  In every state of the mounted component, while Hard is
    suggested the emotion icon is the smile or the neutral face,
    never the frown. *)
Theorem hard_without_frown (lastResult : option Result) (c : Component) :
  Mounted lastResult c ->
  suggestedDifficulty c = "Hard"%string ->
  getEmotionIcon c = SmileIcon \/ getEmotionIcon c = MehIcon.
Proof.
  intros H Hard. destruct (Mounted_recomputed _ _ H)
    as [f [s [e [_ [_ [[He _] [Hst Hd]]]]]]].
  rewrite Hd, adjustDifficulty_scores in Hard.
  assert (K : (f + s <? 40)%Z = true).
  { destruct ((70 <? f)%Z || (80 <? s)%Z); [discriminate|].
    destruct ((50 <? f)%Z || (60 <? s)%Z); [discriminate|].
    destruct (f + s <? 40)%Z; [reflexivity | discriminate]. }
  rewrite <- confidence_above_80 in K. apply Qltb_lt in K.
  unfold getEmotionIcon. rewrite Hst.
  cbn [engagementLevel confidenceLevel num_add num_halve gtb].
  set (k := Qmax 0 (100 - (inject_Z f + inject_Z s) / 2)) in *.
  rewrite Zle_Qle in He. change (inject_Z 0) with 0 in He.
  assert (A : Qltb 40 ((inject_Z e + k) / 2) = true).
  { apply Qltb_lt. apply Qlt_shift_div_l; [reflexivity|]. lra. }
  rewrite A. destruct (Qltb 70 _); auto.
Qed.

(** ** The log *)

Lemma activityLog_simulateActivity (now : Z) (random : Draws)
    (ty : ActivityType) (ic : option bool) (c : Component) :
  activityLog (simulateActivity now random ty ic c)
  = activityLog c
    ++ [ {| timestamp := now; activityType := ty; isCorrect := ic;
            timeSpent :=
              Some (inject_Z (Qfloor (draw_timeSpent random * 180) + 30));
            difficultyLevel :=
              index [Easy; Medium; Hard; Expert]
                    (Qfloor (draw_difficulty random * 4)) |} ].
Proof.
  unfold simulateActivity.
  destruct (ActivityType_eqb ty question_answered); [|reflexivity].
  destruct (truthy_bool ic).
  - destruct (Qltb 0.7 _); reflexivity.
  - destruct (2 <=? _)%Z; reflexivity.
Qed.

Lemma activityLog_step (a : Action) (c : Component) :
  exists added,
    activityLog (step a c) = activityLog c ++ added /\
    map event_of added = events_of [a] /\
    (drawn a -> Forall simulated added).
Proof.
  destruct a as [now random ty ic t1 t2 r| |].
  - simpl step.
    destruct (updateEmotionalState_hooks t1 t2 r
                (simulateActivity now random ty ic c)) as [_ [_ [_ [Hl _]]]].
    cbv zeta in Hl. rewrite Hl, activityLog_simulateActivity.
    eexists. split; [reflexivity|]. split; [reflexivity|].
    intros [[Ht0 Ht1] [Hd0 Hd1]]. constructor; [|constructor].
    unfold simulated. cbn [timeSpent difficultyLevel]. split.
    + eexists. split; [reflexivity|].
      assert (L : (Qfloor 0 <= Qfloor (draw_timeSpent random * 180))%Z)
        by (apply Qfloor_resp_le; lra).
      pose proof (Qfloor_le (draw_timeSpent random * 180)) as U.
      assert (U' : inject_Z (Qfloor (draw_timeSpent random * 180))
                   < inject_Z 180).
      { eapply Qle_lt_trans; [exact U|]. change (inject_Z 180) with 180. lra. }
      rewrite <- Zlt_Qlt in U'. change (Qfloor 0) with 0%Z in L. lia.
    + assert (L : (Qfloor 0 <= Qfloor (draw_difficulty random * 4))%Z)
        by (apply Qfloor_resp_le; lra).
      pose proof (Qfloor_le (draw_difficulty random * 4)) as U.
      assert (U' : inject_Z (Qfloor (draw_difficulty random * 4))
                   < inject_Z 4).
      { eapply Qle_lt_trans; [exact U|]. change (inject_Z 4) with 4. lra. }
      rewrite <- Zlt_Qlt in U'. change (Qfloor 0) with 0%Z in L.
      set (i := Qfloor (draw_difficulty random * 4)) in *.
      assert (Hi : i = 0%Z \/ i = 1%Z \/ i = 2%Z \/ i = 3%Z) by lia.
      destruct Hi as [-> | [-> | [-> | ->]]]; discriminate.
  - exists []. simpl. rewrite app_nil_r. now repeat split.
  - exists []. simpl. rewrite app_nil_r. now repeat split.
Qed.

Lemma activityLog_run (actions : list Action) (c : Component) :
  exists added,
    activityLog (run actions c) = activityLog c ++ added /\
    map event_of added = events_of actions /\
    (Forall drawn actions -> Forall simulated added).
Proof.
  revert c. induction actions as [|a actions IH]; intro c.
  - exists []. simpl. rewrite app_nil_r. now repeat split.
  - simpl run. destruct (activityLog_step a c) as [x [Hx [Ex Sx]]].
    destruct (IH (step a c)) as [y [Hy [Ey Sy]]].
    exists (x ++ y). split; [|split].
    + change (fold_left (fun c a => step a c) actions (step a c))
        with (run actions (step a c)).
      now rewrite Hy, Hx, app_assoc.
    + rewrite map_app, Ex, Ey. unfold events_of. simpl.
      now rewrite app_nil_r.
    + intro H. inversion H; subst. apply Forall_app. auto.
Qed.

Lemma activityLog_mount (lastResult : option Result) (now t1 t2 : Z) (r : Q) :
  activityLog (mount lastResult now t1 t2 r) = [].
Proof.
  unfold mount.
  destruct (updateEmotionalState_hooks t1 t2 r
              (showInitialMessage lastResult (initialRender lastResult now)))
    as [_ [_ [_ [Hl _]]]].
  cbv zeta in Hl. rewrite Hl.
  now destruct (showInitialMessage_keeps lastResult
                  (initialRender lastResult now)) as [-> _].
Qed.

(** X9.  The log is append-only and records exactly the simulated
    events: after any sequence of actions it is the log of before
    followed by one activity for each simulated event, in order, with
    the event's instant, kind and outcome; taking a break or
    dismissing a message adds nothing, and nothing is removed. *)
Theorem log_records_events (actions : list Action) (c : Component) :
  exists added,
    activityLog (run actions c) = activityLog c ++ added /\
    map event_of added = events_of actions.
Proof.
  destruct (activityLog_run actions c) as [added [H [E _]]].
  now exists added.
Qed.

(** X10.  Whatever [Math.random()] returns, every activity logged
    since mount has its difficulty and a whole number of seconds from
    30 to 209. *)
Theorem logged_activities_simulated (lastResult : option Result)
    (now t1 t2 : Z) (r : Q) (actions : list Action) :
  Forall drawn actions ->
  Forall simulated (activityLog (run actions (mount lastResult now t1 t2 r))).
Proof.
  intro H.
  destruct (activityLog_run actions (mount lastResult now t1 t2 r))
    as [added [Hl [_ Hs]]].
  rewrite Hl, activityLog_mount. simpl. now apply Hs.
Qed.

(** X11.  The message selector never leaves the five templates: for
    every reading of [Math.random()] the index it computes is one of
    0, 1, 2, 3 and 4, and the message carries the category asked
    for. *)
Theorem generateEncouragementMessage_template (ty : MessageType) (random : Q)
    (c : Component) :
  unit_draw random ->
  exists i : Z,
    currentMessage (generateEncouragementMessage ty random c)
    = Some {| type := ty; message := template i |} /\
    (0 <= i <= 4)%Z.
Proof.
  intros [H0 H1]. eexists. split; [reflexivity|].
  assert (L : (Qfloor 0 <= Qfloor (random * 5))%Z)
    by (apply Qfloor_resp_le; lra).
  pose proof (Qfloor_le (random * 5)) as U.
  assert (U' : inject_Z (Qfloor (random * 5)) < inject_Z 5).
  { eapply Qle_lt_trans; [exact U|]. change (inject_Z 5) with 5. lra. }
  rewrite <- Zlt_Qlt in U'. change (Qfloor 0) with 0%Z in L. lia.
Qed.

(** ** The counter and the log *)

Lemma count_after_app (l1 l2 : list bool) (n : Z) :
  count_after (l1 ++ l2) n = count_after l2 (count_after l1 n).
Proof.
  revert n. induction l1 as [|b l1 IH]; intro n; [reflexivity|].
  simpl. destruct b; apply IH.
Qed.

Lemma count_after_bounds (l : list bool) (n : Z) :
  (0 <= n)%Z -> (0 <= count_after l n <= n + Z.of_nat (length l))%Z.
Proof.
  revert n. induction l as [|b l IH]; intros n Hn; simpl count_after.
  - simpl. lia.
  - simpl length. destruct b.
    + specialize (IH 0%Z). lia.
    + specialize (IH (n + 1)%Z). lia.
Qed.

Lemma consecutiveWrong_any_step (a : Action) (c : Component) :
  consecutiveWrong (step a c)
  = count_after (answers_of [a]) (consecutiveWrong c).
Proof.
  destruct a as [now random ty ic t1 t2 r| |]; [|reflexivity|reflexivity].
  simpl step. rewrite consecutiveWrong_updateEmotionalState.
  unfold simulateActivity.
  destruct ty; cbn [ActivityType_eqb answers_of flat_map app];
    try reflexivity.
  destruct (truthy_bool ic); simpl count_after.
  - destruct (Qltb 0.7 _); reflexivity.
  - destruct (2 <=? _)%Z; reflexivity.
Qed.

Lemma answers_of_cons (a : Action) (actions : list Action) :
  answers_of (a :: actions) = answers_of [a] ++ answers_of actions.
Proof.
  unfold answers_of. simpl. now rewrite app_nil_r.
Qed.

(** X16.  Only answers move the counter of consecutive wrong answers:
    after any sequence of actions it is what the answers among them
    make of it, a correct one resetting it and any other adding 1;
    hints, retries, breaks and dismissals in between do not interrupt
    a run of wrong answers. *)
Theorem consecutiveWrong_follows_answers (actions : list Action)
    (c : Component) :
  consecutiveWrong (run actions c)
  = count_after (answers_of actions) (consecutiveWrong c).
Proof.
  revert c. induction actions as [|a actions IH]; intro c; [reflexivity|].
  rewrite answers_of_cons, count_after_app.
  change (run (a :: actions) c) with (run actions (step a c)).
  now rewrite IH, consecutiveWrong_any_step.
Qed.

Lemma answers_in_app (l1 l2 : list LearningActivity) :
  answers_in (l1 ++ l2) = answers_in l1 ++ answers_in l2.
Proof.
  unfold answers_in. now rewrite filter_app, map_app.
Qed.

Lemma length_answers_in (l : list LearningActivity) :
  (length (answers_in l) <= length l)%nat.
Proof.
  unfold answers_in. rewrite length_map. apply filter_length_le.
Qed.

Lemma Mounted_counter (lastResult : option Result) (c : Component) :
  Mounted lastResult c ->
  consecutiveWrong c = count_after (answers_in (activityLog c)) 0.
Proof.
  induction 1 as [now t1 t2 r | c a _ IH].
  - rewrite activityLog_mount. unfold mount.
    rewrite consecutiveWrong_updateEmotionalState.
    now destruct (showInitialMessage_keeps lastResult
                    (initialRender lastResult now)) as [_ [_ ->]].
  - rewrite consecutiveWrong_any_step, IH.
    destruct a as [now random ty ic t1 t2 r| |]; [|reflexivity|reflexivity].
    simpl step.
    destruct (updateEmotionalState_hooks t1 t2 r
                (simulateActivity now random ty ic c)) as [_ [_ [_ [Hl _]]]].
    cbv zeta in Hl. rewrite Hl, activityLog_simulateActivity.
    rewrite answers_in_app, count_after_app. f_equal.
    unfold answers_in, answers_of. cbn [filter activityType flat_map app].
    destruct ty; reflexivity.
Qed.

(** X17.  In every state of the mounted component the counter of
    consecutive wrong answers is the one the answers recorded in the
    log produce from 0; it is never negative and never more than the
    number of answers logged. *)
Theorem consecutiveWrong_matches_log (lastResult : option Result)
    (c : Component) :
  Mounted lastResult c ->
  consecutiveWrong c = count_after (answers_in (activityLog c)) 0 /\
  (0 <= consecutiveWrong c <= Z.of_nat (length (answers_in (activityLog c))))%Z.
Proof.
  intro H. pose proof (Mounted_counter _ _ H) as E. split; [exact E|].
  rewrite E.
  pose proof (count_after_bounds (answers_in (activityLog c)) 0). lia.
Qed.

(** ** The statistics card *)

Lemma correct_incorrect_split (log : list LearningActivity) :
  (count (fun a => truthy_bool (isCorrect a)) log
   + count (fun a => match isCorrect a with Some false => true | _ => false end)
           log
   + count (fun a => match isCorrect a with None => true | _ => false end) log
   = Z.of_nat (length log))%Z.
Proof.
  unfold count. induction log as [|a log IH]; [reflexivity|].
  simpl filter. simpl length at 4.
  destruct (isCorrect a) as [[|]|]; simpl truthy_bool; cbv iota;
    simpl length; lia.
Qed.

Lemma count_zero {A : Type} (p : A -> bool) (l : list A) :
  count p l = 0%Z <-> Forall (fun a => p a = false) l.
Proof.
  split; [|apply count_none].
  unfold count. induction l as [|a l IH]; intro H; [constructor|].
  simpl in H. destruct (p a) eqn:E; [simpl in H; lia|].
  constructor; [exact E | now apply IH].
Qed.

(** X18.  On the statistics card an activity counts as correct or as
    incorrect, never as both, and only if it has [isCorrect]: the two
    counters add up to the number of activities at most, and to that
    number exactly when every logged activity has [isCorrect]. *)
Theorem statistics_partition (c : Component) :
  (statCorrect c + statIncorrect c <= statActivities c)%Z /\
  ((statCorrect c + statIncorrect c = statActivities c)%Z <->
   Forall (fun a => isCorrect a <> None) (activityLog c)).
Proof.
  unfold statCorrect, statIncorrect, statActivities.
  pose proof (correct_incorrect_split (activityLog c)) as H.
  pose proof (count_bounds
                (fun a => match isCorrect a with None => true | _ => false end)
                (activityLog c)) as Hb.
  split; [lia|]. split.
  - intro E.
    assert (Z0 : count (fun a => match isCorrect a with
                                 | None => true | _ => false end)
                       (activityLog c) = 0%Z) by lia.
    apply count_zero in Z0. revert Z0. apply Forall_impl.
    intros a Ha. destruct (isCorrect a); [discriminate | discriminate].
  - intro F.
    assert (Z0 : count (fun a => match isCorrect a with
                                 | None => true | _ => false end)
                       (activityLog c) = 0%Z).
    { apply count_zero. revert F. apply Forall_impl.
      intros a Ha. destruct (isCorrect a); [reflexivity | congruence]. }
    lia.
Qed.

(** ** Colours *)

(** X19.  The two colour scales mirror each other on every number,
    [NaN] included: a value is red on the one exactly when it is green
    on the other, and yellow on both or on neither. *)
Theorem colour_scales_mirror (value : num) :
  (getColorClass value = "bg-danger"%string <->
   getEngagementColorClass value = "bg-success"%string) /\
  (getColorClass value = "bg-warning"%string <->
   getEngagementColorClass value = "bg-warning"%string) /\
  (getColorClass value = "bg-success"%string <->
   getEngagementColorClass value = "bg-danger"%string).
Proof.
  unfold getColorClass, getEngagementColorClass.
  destruct (gtb value 70), (gtb value 40);
    repeat split; intro H; try reflexivity; discriminate H.
Qed.

(** ** The seed *)

(** X20.  The seed from a last result is in range: stress from 30 to
    70, engagement from 40 to 100, confidence from 20 to 95 and, when
    the assessment has questions, frustration from 0 to 80. *)
Theorem seed_in_range (res : Result) :
  let e := getInitialEmotionalState (Some res) in
  in_range 30 70 (stressLevel e) /\
  in_range 40 100 (engagementLevel e) /\
  in_range 20 95 (confidenceLevel e) /\
  (questionResults res <> [] -> in_range 0 80 (frustrationLevel e)).
Proof.
  cbv zeta. unfold getInitialEmotionalState.
  cbn [frustrationLevel stressLevel engagementLevel confidenceLevel in_range].
  split; [|split; [|split]].
  - destruct (Qltb 45 (timeTaken res)) eqn:E.
    + apply Qltb_lt in E. split.
      * apply Q.min_glb; lra.
      * apply Q.le_min_r.
    + split; discriminate.
  - split; [apply Q.le_max_l|].
    apply Q.max_lub; [discriminate | apply Q.le_min_l].
  - split; [apply Q.le_max_l|].
    apply Q.max_lub; [discriminate | apply Q.le_min_l].
  - intro Hq. rewrite div_nonzero by now apply inject_Z_length_nonzero.
    cbn [mul min in_range]. split; [|apply Q.le_min_r].
    apply Q.min_glb; [|discriminate].
    pose proof (count_bounds (fun qr => negb (qr_isCorrect qr))
                  (questionResults res)) as [Hc _].
    rewrite Zle_Qle in Hc. change (inject_Z 0) with 0 in Hc.
    pose proof (inject_Z_length_pos _ Hq) as Hp.
    assert (Hd : 0 <= inject_Z (count (fun qr => negb (qr_isCorrect qr))
                                      (questionResults res))
                      / inject_Z (Z.of_nat (length (questionResults res)))).
    { apply Qle_shift_div_l; [exact Hp|]. lra. }
    set (q := inject_Z _ / inject_Z _) in *.
    assert (H1 : 0 <= q * 100) by (apply Qmult_le_0_compat; lra).
    apply Qmult_le_0_compat; lra.
Qed.

(** ** What the running component never shows *)

Lemma simulated_unhurried (a : LearningActivity) :
  simulated a -> 30 <= or_zero (timeSpent a).
Proof.
  intros [[t [Ht [Hlo _]]] _]. rewrite Ht. simpl or_zero.
  change 30 with (inject_Z 30). now rewrite <- Zle_Qle.
Qed.

(** X24.  The rushing bonus is out of reach of the demo buttons:
    whatever [Math.random()] returns, in a log built since mount every
    activity took 30 seconds or more, so stress is the session bonuses
    plus 10 for each Hard or Expert activity among the last five, up
    to 100. *)
Theorem simulated_log_never_rushed (lastResult : option Result)
    (now t1 t2 : Z) (r : Q) (actions : list Action) (t start : Z) :
  Forall drawn actions ->
  let log := activityLog (run actions (mount lastResult now t1 t2 r)) in
  calculateStress t start log
  = Z.min 100
      ((if Qltb 45 (sessionDuration t start) then 30 else 0)
       + (if Qltb 90 (sessionDuration t start) then 40 else 0)
       + 10 * count is_hard (lastN 5 log)).
Proof.
  intros H log.
  assert (U : Forall (fun a => 30 <= or_zero (timeSpent a)) (lastN 5 log)).
  { apply Forall_lastN.
    destruct (activityLog_run actions (mount lastResult now t1 t2 r))
      as [added [Hl [_ Hs]]].
    unfold log. rewrite Hl, activityLog_mount. simpl.
    specialize (Hs H). revert Hs. apply Forall_impl.
    exact simulated_unhurried. }
  unfold calculateStress. cbv zeta.
  rewrite (slice_last 5). change (Pos.to_nat 5) with 5%nat.
  rewrite rushing_agrees, (unhurried_not_rushing _ U).
  rewrite Z.min_comm. f_equal.
  destruct (Qltb 45 _), (Qltb 90 _); lia.
Qed.

(** X25.  When the recomputation runs within three minutes of the
    event that caused it, the idle penalty does not apply: the
    engagement on display is 100 less 8 for each hint request among
    the last ten activities, and never below 20. *)
Theorem engagement_after_event (now : Z) (random : Draws) (ty : ActivityType)
    (ic : option bool) (t1 t2 : Z) (r : Q) (c : Component) :
  (t2 - now <= 180000)%Z ->
  let c' := step (Simulate now random ty ic t1 t2 r) c in
  let hints :=
    count (fun a => ActivityType_eqb (activityType a) hint_requested)
          (lastN 10 (activityLog c')) in
  engagementLevel (emotionalState c') = Fin (inject_Z (100 - 8 * hints)) /\
  (20 <= 100 - 8 * hints)%Z.
Proof.
  intro H. cbv zeta. simpl step.
  destruct (updateEmotionalState_hooks t1 t2 r
              (simulateActivity now random ty ic c)) as [_ [_ [_ [Hl _]]]].
  cbv zeta in Hl. rewrite Hl, emotionalState_updateEmotionalState.
  cbn [engagementLevel]. rewrite activityLog_simulateActivity.
  set (new := {| timestamp := now; activityType := ty; isCorrect := ic;
                 timeSpent := _; difficultyLevel := _ |}).
  set (log := activityLog c ++ [new]).
  assert (Hh : (0 <= count (fun a => ActivityType_eqb (activityType a)
                                       hint_requested) (lastN 10 log)
                <= 10)%Z).
  { pose proof (count_bounds
                  (fun a => ActivityType_eqb (activityType a) hint_requested)
                  (lastN 10 log)) as Hc.
    pose proof (length_lastN 10 log). lia. }
  split; [|lia]. do 2 f_equal.
  unfold calculateEngagement.
  replace (length log =? 0)%nat with false
    by (symmetry; apply Nat.eqb_neq; unfold log; rewrite length_app;
        simpl; lia).
  cbv zeta. rewrite (slice_last 10). change (Pos.to_nat 10) with 10%nat.
  rewrite index_last_of_window.
  unfold log at 1. rewrite rev_app_distr. cbn [rev app hd_error].
  cbn [timestamp new].
  replace (180000 <? t2 - now)%Z with false
    by (symmetry; apply Z.ltb_ge; exact H).
  lia.
Qed.

(** ** Instances *)

Lemma Mounted_run (lastResult : option Result) (actions : list Action)
    (c : Component) :
  Mounted lastResult c -> Mounted lastResult (run actions c).
Proof.
  revert c. induction actions as [|a actions IH]; intros c H; [exact H|].
  simpl. apply IH. now apply Mounted_step.
Qed.

Lemma ten_of_ten : (10 <= length ten_quick_correct)%nat.
Proof.
  apply le_n.
Qed.

Lemma five_of_ten : (5 <= length ten_quick_correct)%nat.
Proof.
  apply Nat.leb_le. reflexivity.
Qed.

Lemma analyzeFrustration_last_ten_witness :
  (10 <= length ten_quick_correct)%nat /\
  analyzeFrustration ([plain_miss] ++ ten_quick_correct)
  = analyzeFrustration ten_quick_correct.
Proof.
  split; [exact ten_of_ten|].
  exact (analyzeFrustration_last_ten [plain_miss] ten_quick_correct ten_of_ten).
Defined.

Lemma calculateStress_last_five_witness :
  (5 <= length ten_quick_correct)%nat /\
  calculateStress 6000000 0 ([hard_correct] ++ ten_quick_correct)
  = calculateStress 6000000 0 ten_quick_correct.
Proof.
  split; [exact five_of_ten|].
  exact (calculateStress_last_five 6000000 0 [hard_correct] ten_quick_correct
           five_of_ten).
Defined.

Lemma calculateEngagement_last_ten_witness :
  (10 <= length ten_quick_correct)%nat /\
  calculateEngagement 1000 ([plain_miss] ++ ten_quick_correct)
  = calculateEngagement 1000 ten_quick_correct.
Proof.
  split; [exact ten_of_ten|].
  exact (calculateEngagement_last_ten 1000 [plain_miss] ten_quick_correct
           ten_of_ten).
Defined.

Lemma three_plain_misses :
  Forall (fun a => activityType a = question_answered /\
                   truthy_bool (isCorrect a) = false /\
                   or_zero (timeSpent a) <= 120) (repeat plain_miss 3).
Proof.
  repeat constructor; discriminate.
Qed.

Lemma analyzeFrustration_wrong_answers_witness :
  Forall (fun a => activityType a = question_answered /\
                   truthy_bool (isCorrect a) = false /\
                   or_zero (timeSpent a) <= 120) (repeat plain_miss 3) /\
  analyzeFrustration (repeat plain_miss 3) = 45%Z.
Proof.
  split; [exact three_plain_misses|].
  exact (analyzeFrustration_wrong_answers (repeat plain_miss 3)
           three_plain_misses).
Defined.

Lemma last_five_unhurried :
  Forall (fun a => 30 <= or_zero (timeSpent a)) (lastN 5 ten_quick_correct).
Proof.
  repeat constructor; discriminate.
Qed.

Lemma calculateStress_without_rushing_witness :
  Forall (fun a => 30 <= or_zero (timeSpent a)) (lastN 5 ten_quick_correct) /\
  calculateStress 6000000 0 ten_quick_correct = 70%Z.
Proof.
  split; [exact last_five_unhurried|].
  exact (calculateStress_without_rushing 6000000 0 ten_quick_correct
           last_five_unhurried).
Defined.


Lemma mount_replaces_seed_witness :
  (0 - 0 <= 2700000)%Z /\
  stressLevel (emotionalState (mount (Some nine_of_ten) 0 0 0 0.5)) = Fin 0 /\
  eqv (confidenceLevel (emotionalState (mount (Some nine_of_ten) 0 0 0 0.5)))
      (Fin 100).
Proof.
  assert (H : (0 - 0 <= 2700000)%Z) by discriminate.
  split; [exact H|].
  exact (proj2 (proj2 (proj2 (proj2
           (mount_replaces_seed (Some nine_of_ten) 0 0 0 0.5)))) H).
Defined.

Lemma mount_opening_message_witness :
  80 <= percentage nine_of_ten /\
  message_category (mount (Some nine_of_ten) 0 0 0 0.5) = Some celebration.
Proof.
  assert (H : 80 <= percentage nine_of_ten) by discriminate.
  split; [exact H|].
  exact (proj1 (mount_opening_message (Some nine_of_ten) 0 0 0 0.5) H).
Defined.

Lemma one_answer_logs : Forall logs_activity [answer 1000 true].
Proof.
  repeat constructor.
Qed.

Lemma break_suggestion_stays_witness :
  Forall logs_activity [answer 1000 true] /\
  showBreakSuggestion fresh_with_break = true /\
  showBreakSuggestion (run [answer 1000 true] fresh_with_break) = true.
Proof.
  split; [exact one_answer_logs|]. split; [reflexivity|].
  exact (break_suggestion_stays [answer 1000 true] fresh_with_break
           one_answer_logs eq_refl).
Defined.

Lemma one_answer_drawn : Forall drawn [answer 1000 false].
Proof.
  repeat constructor; discriminate.
Qed.

Lemma logged_activities_simulated_witness :
  Forall drawn [answer 1000 false] /\
  Forall simulated
    (activityLog (run [answer 1000 false] (mount None 0 0 0 0.5))).
Proof.
  split; [exact one_answer_drawn|].
  exact (logged_activities_simulated None 0 0 0 0.5 [answer 1000 false]
           one_answer_drawn).
Defined.

Lemma half_is_a_draw : unit_draw 0.5.
Proof.
  split; [discriminate | reflexivity].
Qed.

Lemma generateEncouragementMessage_template_witness :
  unit_draw 0.5 /\
  exists i : Z,
    currentMessage
      (generateEncouragementMessage motivation 0.5 (initialRender None 0))
    = Some {| type := motivation; message := template i |} /\
    (0 <= i <= 4)%Z.
Proof.
  split; [exact half_is_a_draw|].
  exact (generateEncouragementMessage_template motivation 0.5
           (initialRender None 0) half_is_a_draw).
Defined.



Lemma fresh_mounted : Mounted None fresh.
Proof.
  apply Mounted_mount.
Qed.

Lemma after_five_misses_mounted : Mounted None after_five_misses.
Proof.
  apply Mounted_run, fresh_mounted.
Qed.

Lemma suggestion_follows_snapshot_witness :
  Mounted None after_five_misses /\
  suggestion_matches_snapshot after_five_misses.
Proof.
  split; [exact after_five_misses_mounted|].
  exact (suggestion_follows_snapshot None after_five_misses
           after_five_misses_mounted).
Defined.

Lemma consecutiveWrong_matches_log_witness :
  Mounted None after_five_misses /\
  consecutiveWrong after_five_misses
  = count_after (answers_in (activityLog after_five_misses)) 0 /\
  (0 <= consecutiveWrong after_five_misses
   <= Z.of_nat (length (answers_in (activityLog after_five_misses))))%Z.
Proof.
  split; [exact after_five_misses_mounted|].
  exact (consecutiveWrong_matches_log None after_five_misses
           after_five_misses_mounted).
Defined.

Lemma nine_of_ten_has_questions : questionResults nine_of_ten <> [].
Proof.
  discriminate.
Qed.

Lemma seed_in_range_witness :
  questionResults nine_of_ten <> [] /\
  in_range 0 80 (frustrationLevel (getInitialEmotionalState (Some nine_of_ten))).
Proof.
  split; [exact nine_of_ten_has_questions|].
  exact (proj2 (proj2 (proj2 (seed_in_range nine_of_ten)))
           nine_of_ten_has_questions).
Defined.



Lemma fresh_hard : suggestedDifficulty fresh = "Hard"%string.
Proof.
  vm_compute. reflexivity.
Qed.

Lemma hard_without_frown_witness :
  Mounted None fresh /\
  suggestedDifficulty fresh = "Hard"%string /\
  (getEmotionIcon fresh = SmileIcon \/ getEmotionIcon fresh = MehIcon).
Proof.
  split; [exact fresh_mounted|]. split; [exact fresh_hard|].
  exact (hard_without_frown None fresh fresh_mounted fresh_hard).
Defined.

Lemma simulated_log_never_rushed_witness :
  Forall drawn [answer 1000 false] /\
  calculateStress 6000000 0
    (activityLog (run [answer 1000 false] (mount None 0 0 0 0.5)))
  = 80%Z.
Proof.
  split; [exact one_answer_drawn|].
  exact (simulated_log_never_rushed None 0 0 0 0.5 [answer 1000 false]
           6000000 0 one_answer_drawn).
Defined.

Lemma engagement_after_event_witness :
  (1001 - 1000 <= 180000)%Z /\
  engagementLevel
    (emotionalState
       (step (Simulate 1000 (mkDraws 0.5 0.5 0.5 0.5) hint_requested None
                1001 1001 0.5) fresh))
  = Fin (inject_Z 92).
Proof.
  assert (H : (1001 - 1000 <= 180000)%Z) by discriminate.
  split; [exact H|].
  exact (proj1 (engagement_after_event 1000 (mkDraws 0.5 0.5 0.5 0.5)
                  hint_requested None 1001 1001 0.5 fresh H)).
Defined.
